(** * The Qarnot tool gateway ([mcp_server.py]): model and properties

    The module under study is glue code: every tool opens a connection to the
    Qarnot SDK, calls a handful of SDK operations, reshapes what comes back
    into a string and returns it.  The model below keeps that shape:

    - Python values the code inspects are records and inductive types
      ([Task], [Bucket], [json], ...); a Python [str] is a [string] whose
      characters are code points below 256;
    - the SDK is a collaborator: each of its operations is a constructor of
      [sdk_op], a program is a tree of such calls ([prog]), and [run]
      interprets it against any handler, threading the collaborator's state
      and recording the calls that were made;
    - [json.dumps(_, indent=2)] is written out ([dumps]). *)

From Stdlib Require Import List String Ascii ZArith Lia Bool DecimalString.
Import ListNotations.
Local Open Scope string_scope.

(** ** Python strings *)

Module PyStr.

(** The double quote and the control characters are built from their codes:
    they cannot be typed inside a string literal. *)
Definition dquote : ascii := ascii_of_nat 34.
Definition newline : ascii := ascii_of_nat 10.
Definition q : string := String dquote EmptyString.
Definition nl : string := String newline EmptyString.

(** [str(n)] and [f"{n}"] for an [int]. *)
Definition str_int (z : Z) : string := NilZero.string_of_int (Z.to_int z).

(** [sep.join(parts)]. *)
Fixpoint join (sep : string) (parts : list string) : string :=
  match parts with
  | [] => ""
  | [p] => p
  | p :: rest => p ++ sep ++ join sep rest
  end.

(** [unit * n]. *)
Fixpoint times (unit : string) (n : nat) : string :=
  match n with
  | O => ""
  | S k => unit ++ times unit k
  end.

(** [needle in hay]. *)
Definition contains (needle hay : string) : Prop :=
  exists before after, hay = before ++ needle ++ after.

(** Truthiness of a [str]: only the empty string is falsy. *)
Definition truthy (s : string) : bool :=
  match s with
  | EmptyString => false
  | String _ _ => true
  end.

(** Truthiness of [str | None]. *)
Definition truthy_opt (o : option string) : bool :=
  match o with
  | None => false
  | Some s => truthy s
  end.

End PyStr.
Import PyStr.

(** ** JSON values and [json.dumps(value, indent=2)] *)

#[local] Set Warnings "-register-all".
Inductive json : Type :=
| JNull
| JInt (z : Z)
| JStr (s : string)
| JArr (items : list json)
| JObj (fields : list (string * json)).

Module Json.

(** A Python [dict] literal keeps insertion order and the code never repeats
    a key, so a list of pairs read front to back is the dict. *)
Fixpoint get (key : string) (fields : list (string * json)) : option json :=
  match fields with
  | [] => None
  | (k, v) :: rest => if String.eqb k key then Some v else get key rest
  end.

Definition keys (fields : list (string * json)) : list string :=
  map fst fields.

Definition hex_digit (n : nat) : ascii :=
  if Nat.ltb n 10 then ascii_of_nat (48 + n) else ascii_of_nat (87 + n).

(** [ESCAPE_DCT] and the [\uXXXX] fallback of [py_encode_basestring_ascii]:
    the printable ASCII range goes through, the rest is escaped.  A
    character of this model is a code point below 256, so the fallback is
    met in its [\u00XX] form only: code points from 256 up, and the
    surrogate pairs the library writes for those from 65536 up, lie outside
    the model, and no property below depends on how such characters are
    written. *)
Definition escape_char (c : ascii) : string :=
  let n := nat_of_ascii c in
  if Nat.eqb n 34 then "\" ++ q
  else if Nat.eqb n 92 then "\\"
  else if Nat.eqb n 10 then "\n"
  else if Nat.eqb n 13 then "\r"
  else if Nat.eqb n 9 then "\t"
  else if Nat.eqb n 12 then "\f"
  else if Nat.eqb n 8 then "\b"
  else if Nat.ltb n 32 || Nat.ltb 126 n
       then "\u00" ++ String (hex_digit (n / 16))
                        (String (hex_digit (n mod 16)) EmptyString)
  else String c EmptyString.

Fixpoint escape (s : string) : string :=
  match s with
  | EmptyString => ""
  | String c rest => escape_char c ++ escape rest
  end.

Definition encode_basestring_ascii (s : string) : string :=
  q ++ escape s ++ q.

(** [newline_indent] of [_make_iterencode] at a nesting level. *)
Definition newline_indent (level : nat) : string :=
  nl ++ times "  " level.

(** [_iterencode] with [indent=2], whose separators are [","] and [": "]. *)
Fixpoint encode (level : nat) (v : json) : string :=
  match v with
  | JNull => "null"
  | JInt z => str_int z
  | JStr s => encode_basestring_ascii s
  | JArr [] => "[]"
  | JArr items =>
      "[" ++ newline_indent (S level)
          ++ join ("," ++ newline_indent (S level))
                  (map (encode (S level)) items)
          ++ newline_indent level ++ "]"
  | JObj [] => "{}"
  | JObj fields =>
      "{" ++ newline_indent (S level)
          ++ join ("," ++ newline_indent (S level))
                  (map (fun kv => encode_basestring_ascii (fst kv) ++ ": "
                                    ++ encode (S level) (snd kv))
                       fields)
          ++ newline_indent level ++ "}"
  end.

Definition dumps (v : json) : string := encode 0 v.

End Json.
Import Json.

(** ** Python exceptions and results *)

(** An exception is observed through its class and its message. *)
Record exn : Type := Exn { exn_class : string; exn_msg : string }.

Definition ValueError (msg : string) : exn := Exn "ValueError" msg.

Inductive result (A : Type) : Type :=
| Ok (a : A)
| Raise (e : exn).
Arguments Ok {A} a.
Arguments Raise {A} e.

(** [hasattr]/[getattr] on the SDK's loosely structured objects: an attribute
    is either not there at all or holds a value. *)
Inductive attr (A : Type) : Type :=
| Missing
| Present (a : A).
Arguments Missing {A}.
Arguments Present {A} a.

(** [getattr(obj, name, default)]. *)
Definition getattr {A : Type} (a : attr A) (default : A) : A :=
  match a with
  | Missing => default
  | Present x => x
  end.

(** ** Startup: the module-level code of [mcp_server.py] *)

Section Startup.

(** The process environment as [os.getenv] reads it. *)
Definition environ : Type := string -> option string.

(** [load_dotenv()] belongs to python-dotenv; all the module relies on is
    that it leaves an environment behind. *)
Variable load_dotenv : environ -> environ.

(** Lines 9 to 13: the value bound to [QARNOT_TOKEN], or the [ValueError]
    that stops the import of the module. *)
Definition startup (os_environ : environ) : result string :=
  let env := load_dotenv os_environ in
  match env "QARNOT_TOKEN" with
  | Some QARNOT_TOKEN =>
      if negb (truthy QARNOT_TOKEN)
      then Raise (ValueError "QARNOT_TOKEN environment variable is required")
      else Ok QARNOT_TOKEN
  | None =>
      Raise (ValueError "QARNOT_TOKEN environment variable is required")
  end.

End Startup.

(** ** The SDK objects the tools read *)

Section Gateway.

(** Values the code only hands to [str()] or to an f-string (the progress
    figure, the timestamps, the durations), with that rendering; and the
    SDK's connection handle. *)
Variable object : Type.
Variable str : object -> string.
Variable Connection : Type.

(** [TaskActiveForward]. *)
Record Forward : Type := {
  application_port : Z;
  forwarder_host : string;
  forwarder_port : Z
}.

(** One entry of [per_running_instance_info].  When the SDK sets
    [active_forwards] it sets a list, possibly empty. *)
Record Instance : Type := {
  instance_id : Z;
  active_forwards : attr (list Forward)
}.

(** [task.status.running_instances_info]; its list of instances, when the
    attribute is there, is a list as well. *)
Record RunningInfo : Type := {
  per_running_instance_info : attr (list Instance)
}.

(** [task.status]; an inner [None] is Python's [None]. *)
Record Status : Type := {
  running_instances_info : attr (option RunningInfo)
}.

(** The attributes of a task object that the tools read.  Reading one is a
    plain attribute access: it makes no call of its own. *)
Record Task : Type := {
  uuid : string;
  name : string;
  state : string;
  progress : object;
  instancecount : Z;
  running_instance_count : Z;
  running_core_count : Z;
  execution_time : object;
  wall_time : object;
  creation_date : object;
  end_date : option object;
  status : attr (option Status)
}.

Record Bucket : Type := { bucket_uuid : string }.

Record File : Type := { key : string }.

(** ** The SDK operations, as calls *)

Inductive sdk_op : Type :=
| NewConnection (client_token : string)
| tasks (conn : Connection)
| retrieve_task (conn : Connection) (uuid : string)
| update (task : Task) (flushcache : bool)
| stdout (task : Task) (instance_id : option Z)
| stderr (task : Task) (instance_id : option Z)
| abort (task : Task)
| buckets (conn : Connection)
| retrieve_bucket (conn : Connection) (bucket_name : string)
| list_files (bucket : Bucket)
| get_file (bucket : Bucket) (remote_path local_path : string).

(** What each call hands back.  [update] refreshes the task object in
    place: the refreshed object is its answer.  [stdout()] and
    [stdout(instance_id)] are the two arities of one accessor. *)
Definition answer (op : sdk_op) : Type :=
  match op with
  | NewConnection _ => Connection
  | tasks _ => list Task
  | retrieve_task _ _ => Task
  | update _ _ => Task
  | stdout _ _ => option string
  | stderr _ _ => option string
  | abort _ => unit
  | buckets _ => list Bucket
  | retrieve_bucket _ _ => Bucket
  | list_files _ => list File
  | get_file _ _ _ => unit
  end.

(** A tool body: a tree of SDK calls ending in the returned value. *)
Inductive prog (A : Type) : Type :=
| Ret (a : A)
| Call (op : sdk_op) (k : answer op -> prog A).
Arguments Ret {A} a.
Arguments Call {A} op k.

Fixpoint bind {A B : Type} (p : prog A) (f : A -> prog B) : prog B :=
  match p with
  | Ret a => f a
  | Call op k => Call op (fun x => bind (k x) f)
  end.

Definition call (op : sdk_op) : prog (answer op) := Call op Ret.

(** ** Running a program against a collaborator *)

Variable World : Type.

(** A collaborator answers a call or raises, and moves to a new state. *)
Definition handler : Type :=
  forall op : sdk_op, World -> result (answer op) * World.

Record outcome (A : Type) : Type := {
  returned : result A;
  final : World;
  trace : list sdk_op
}.
Arguments returned {A} o.
Arguments final {A} o.
Arguments trace {A} o.

(** An exception raised by the collaborator is not caught by any tool: it
    ends the run as it is. *)
Fixpoint run {A : Type} (h : handler) (p : prog A) (w : World) : outcome A :=
  match p with
  | Ret a => {| returned := Ok a; final := w; trace := [] |}
  | Call op k =>
      match h op w with
      | (Ok x, w') =>
          let o := run h (k x) w' in
          {| returned := returned o; final := final o;
             trace := op :: trace o |}
      | (Raise e, w') =>
          {| returned := Raise e; final := w'; trace := [op] |}
      end
  end.

Notation "x <- p ;; k" := (bind p (fun x => k))
  (at level 61, p at next level, right associativity).

(** ** The tools *)

(** The module global bound at startup. *)
Variable QARNOT_TOKEN : string.

Definition get_connection : prog Connection :=
  call (NewConnection QARNOT_TOKEN).

(** [x or default] on [str | None]. *)
Definition or_default (x : option string) (default : string) : string :=
  match x with
  | Some s => if truthy s then s else default
  | None => default
  end.

(** [str(d) if d else "N/A"]: a timestamp object is always truthy. *)
Definition date_or_na (d : option object) : string :=
  match d with
  | Some d => str d
  | None => "N/A"
  end.

(** The dict appended for each task by [list_tasks]. *)
Definition task_summary (task : Task) : json :=
  JObj [ ("uuid", JStr (uuid task));
         ("name", JStr (name task));
         ("state", JStr (state task));
         ("progress", JStr (str (progress task) ++ "%"));
         ("instance_count", JInt (instancecount task));
         ("running_instances", JInt (running_instance_count task));
         ("creation_date", JStr (str (creation_date task)));
         ("end_date", JStr (date_or_na (end_date task))) ].

Definition list_tasks : prog string :=
  conn <- get_connection ;;
  tasks <- call (tasks conn) ;;
  let result := map task_summary tasks in
  Ret (dumps (JArr result)).

(** The dict appended to [ssh_info] for one forward of one instance. *)
Definition forward_descriptor (instance : Instance) (fwd : Forward) : json :=
  JObj [ ("instance_id", JInt (instance_id instance));
         ("app_port", JInt (application_port fwd));
         ("host", JStr (forwarder_host fwd));
         ("port", JInt (forwarder_port fwd));
         ("ssh_command",
          if Z.eqb (application_port fwd) 22
          then JStr ("ssh -p " ++ str_int (forwarder_port fwd)
                       ++ " user@" ++ forwarder_host fwd)
          else JNull) ].

(** Lines 58 to 71: the two nested loops under the two guards. *)
Definition ssh_info (task : Task) : list json :=
  match status task with
  | Present (Some task_status) =>
      match getattr (running_instances_info task_status) None with
      | Some running_info =>
          flat_map
            (fun instance =>
               map (forward_descriptor instance)
                   (getattr (active_forwards instance) []))
            (getattr (per_running_instance_info running_info) [])
      | None => []
      end
  | Present None => []
  | Missing => []
  end.

(** Lines 73 to 86: the [result] dict of [get_task_status]. *)
Definition status_result (task : Task) : json :=
  JObj [ ("uuid", JStr (uuid task));
         ("name", JStr (name task));
         ("state", JStr (state task));
         ("progress", JStr (str (progress task) ++ "%"));
         ("instance_count", JInt (instancecount task));
         ("running_instances", JInt (running_instance_count task));
         ("running_cores", JInt (running_core_count task));
         ("execution_time", JStr (str (execution_time task)));
         ("wall_time", JStr (str (wall_time task)));
         ("creation_date", JStr (str (creation_date task)));
         ("end_date", JStr (date_or_na (end_date task)));
         ("ssh_connections",
          match ssh_info task with
          | [] => JStr "No active SSH forwards"
          | _ :: _ => JArr (ssh_info task)
          end) ].

Definition get_task_status (uuid : string) : prog string :=
  conn <- get_connection ;;
  task <- call (retrieve_task conn uuid) ;;
  task <- call (update task true) ;;
  Ret (dumps (status_result task)).

Definition get_task_stdout (uuid : string) (instance_id : option Z)
  : prog string :=
  conn <- get_connection ;;
  task <- call (retrieve_task conn uuid) ;;
  stdout <- match instance_id with
            | Some i => call (stdout task (Some i))
            | None => call (stdout task None)
            end ;;
  Ret (or_default stdout "(no output)").

Definition get_task_stderr (uuid : string) (instance_id : option Z)
  : prog string :=
  conn <- get_connection ;;
  task <- call (retrieve_task conn uuid) ;;
  stderr <- match instance_id with
            | Some i => call (stderr task (Some i))
            | None => call (stderr task None)
            end ;;
  Ret (or_default stderr "(no error output)").

(** [task.state in ["Cancelled", "Success", "Failure"]]. *)
Definition terminal (task_state : string) : bool :=
  existsb (String.eqb task_state) ["Cancelled"; "Success"; "Failure"].

Definition cancel_task (uuid : string) : prog string :=
  conn <- get_connection ;;
  task <- call (retrieve_task conn uuid) ;;
  if terminal (state task)
  then Ret ("Task " ++ uuid ++ " is already in state '" ++ state task
              ++ "' and cannot be cancelled.")
  else
    _ <- call (abort task) ;;
    Ret ("Task " ++ uuid ++ " has been cancelled.").

Definition list_buckets : prog string :=
  conn <- get_connection ;;
  buckets <- call (buckets conn) ;;
  let result := map (fun bucket => JObj [("name", JStr (bucket_uuid bucket))])
                    buckets in
  Ret (match result with
       | [] => "No buckets found."
       | _ :: _ => dumps (JArr result)
       end).

Definition list_bucket_files (bucket_name : string) : prog string :=
  conn <- get_connection ;;
  bucket <- call (retrieve_bucket conn bucket_name) ;;
  listed <- call (list_files bucket) ;;
  let files := map key listed in
  Ret (match files with
       | [] => "No files in bucket."
       | _ :: _ => dumps (JArr (map JStr files))
       end).

Definition download_result (bucket_name remote_path local_path : string)
  : prog string :=
  conn <- get_connection ;;
  bucket <- call (retrieve_bucket conn bucket_name) ;;
  _ <- call (get_file bucket remote_path local_path) ;;
  Ret ("Downloaded '" ++ remote_path ++ "' from '" ++ bucket_name
         ++ "' to '" ++ local_path ++ "'").

(** The eight tools registered on the server, with their arguments. *)
Inductive tool_call : Type :=
| ListTasks
| GetTaskStatus (uuid : string)
| GetTaskStdout (uuid : string) (instance_id : option Z)
| GetTaskStderr (uuid : string) (instance_id : option Z)
| CancelTask (uuid : string)
| ListBuckets
| ListBucketFiles (bucket_name : string)
| DownloadResult (bucket_name remote_path local_path : string).

Definition invoke (c : tool_call) : prog string :=
  match c with
  | ListTasks => list_tasks
  | GetTaskStatus uuid => get_task_status uuid
  | GetTaskStdout uuid instance_id => get_task_stdout uuid instance_id
  | GetTaskStderr uuid instance_id => get_task_stderr uuid instance_id
  | CancelTask uuid => cancel_task uuid
  | ListBuckets => list_buckets
  | ListBucketFiles bucket_name => list_bucket_files bucket_name
  | DownloadResult bucket_name remote_path local_path =>
      download_result bucket_name remote_path local_path
  end.

End Gateway.

Arguments uuid {object} t.
Arguments name {object} t.
Arguments state {object} t.
Arguments progress {object} t.
Arguments instancecount {object} t.
Arguments running_instance_count {object} t.
Arguments running_core_count {object} t.
Arguments execution_time {object} t.
Arguments wall_time {object} t.
Arguments creation_date {object} t.
Arguments end_date {object} t.
Arguments status {object} t.
Arguments Build_Task {object}.
Arguments NewConnection {object Connection} client_token.
Arguments tasks {object Connection} conn.
Arguments retrieve_task {object Connection} conn uuid.
Arguments update {object Connection} task flushcache.
Arguments stdout {object Connection} task instance_id.
Arguments stderr {object Connection} task instance_id.
Arguments abort {object Connection} task.
Arguments buckets {object Connection} conn.
Arguments retrieve_bucket {object Connection} conn bucket_name.
Arguments list_files {object Connection} bucket.
Arguments get_file {object Connection} bucket remote_path local_path.
Arguments answer {object Connection} op.
Arguments Ret {object Connection A} a.
Arguments Call {object Connection A} op k.
Arguments bind {object Connection A B} p f.
Arguments call {object Connection} op.
Arguments run {object Connection World A} h p w.
Arguments returned {object Connection World A} o.
Arguments final {object Connection World A} o.
Arguments trace {object Connection World A} o.
Arguments Build_outcome {object Connection World A}.
Arguments get_connection {object Connection} QARNOT_TOKEN.
Arguments task_summary {object} str task.
Arguments list_tasks {object} str {Connection} QARNOT_TOKEN.
Arguments ssh_info {object} task.
Arguments status_result {object} str task.
Arguments get_task_status {object} str {Connection} QARNOT_TOKEN uuid.
Arguments get_task_stdout {object Connection} QARNOT_TOKEN uuid instance_id.
Arguments get_task_stderr {object Connection} QARNOT_TOKEN uuid instance_id.
Arguments cancel_task {object Connection} QARNOT_TOKEN uuid.
Arguments list_buckets {object Connection} QARNOT_TOKEN.
Arguments list_bucket_files {object Connection} QARNOT_TOKEN bucket_name.
Arguments download_result {object Connection} QARNOT_TOKEN
  bucket_name remote_path local_path.
Arguments invoke {object} str {Connection} QARNOT_TOKEN c.
Arguments date_or_na {object} str d.

(** The calls of a run that reach [task.abort()]. *)
Definition is_abort {object Connection : Type} (op : sdk_op object Connection)
  : bool :=
  match op with
  | abort _ => true
  | _ => false
  end.

Definition abort_count {object Connection : Type}
  (calls : list (sdk_op object Connection)) : nat :=
  List.length (filter is_abort calls).

(** The forwards that the running instances of a task report, in the order
    the status lists them: every [(instance, forward)] with [instance] among
    the task's running instances and [forward] among its active forwards. *)
Definition reported_forwards {object : Type} (task : Task object)
  : list (Instance * Forward) :=
  match status task with
  | Present (Some task_status) =>
      match running_instances_info task_status with
      | Present (Some running_info) =>
          flat_map
            (fun instance =>
               map (pair instance) (getattr (active_forwards instance) []))
            (getattr (per_running_instance_info running_info) [])
      | _ => []
      end
  | _ => []
  end.

(** ** A reference collaborator

    A small in-memory stand-in for the platform, of the kind a test would
    plug in: an account with tasks, captured output, buckets of files, and a
    local file system.  Opaque values are carried already rendered, and a
    connection remembers the token it was built from. *)

Module Mock.

Definition bytes : Type := list Byte.byte.

Record World : Type := {
  remote_tasks : list (Task string);
  stdout_capture : string -> option Z -> option string;
  stderr_capture : string -> option Z -> option string;
  remote_buckets : list (string * list (string * bytes));
  local_files : string -> option bytes;
  read_only : list string
}.

Fixpoint lookup {A : Type} (k : string) (l : list (string * A)) : option A :=
  match l with
  | [] => None
  | (k', v) :: rest => if String.eqb k' k then Some v else lookup k rest
  end.

Definition find_task (u : string) (w : World) : option (Task string) :=
  find (fun t => String.eqb (uuid t) u) (remote_tasks w).

Definition with_state (s : string) (t : Task string) : Task string :=
  {| uuid := uuid t; name := name t; state := s; progress := progress t;
     instancecount := instancecount t;
     running_instance_count := running_instance_count t;
     running_core_count := running_core_count t;
     execution_time := execution_time t; wall_time := wall_time t;
     creation_date := creation_date t; end_date := end_date t;
     status := status t |}.

Definition set_tasks (ts : list (Task string)) (w : World) : World :=
  {| remote_tasks := ts; stdout_capture := stdout_capture w;
     stderr_capture := stderr_capture w; remote_buckets := remote_buckets w;
     local_files := local_files w; read_only := read_only w |}.

Definition write_file (path : string) (content : bytes) (w : World) : World :=
  {| remote_tasks := remote_tasks w; stdout_capture := stdout_capture w;
     stderr_capture := stderr_capture w; remote_buckets := remote_buckets w;
     local_files := fun p => if String.eqb p path then Some content
                             else local_files w p;
     read_only := read_only w |}.

Definition missing (class what : string) : exn := Exn class what.

Definition handle (op : sdk_op string string) (w : World)
  : result (answer op) * World :=
  match op as o return result (answer o) * World with
  | NewConnection token => (Ok token, w)
  | tasks _ => (Ok (remote_tasks w), w)
  | retrieve_task _ u =>
      match find_task u w with
      | Some t => (Ok t, w)
      | None => (Raise (missing "MissingTaskException" u), w)
      end
  | update t _ =>
      match find_task (uuid t) w with
      | Some t' => (Ok t', w)
      | None => (Raise (missing "MissingTaskException" (uuid t)), w)
      end
  | stdout t i => (Ok (stdout_capture w (uuid t) i), w)
  | stderr t i => (Ok (stderr_capture w (uuid t) i), w)
  | abort t =>
      match find_task (uuid t) w with
      | Some _ =>
          (Ok tt,
           set_tasks (map (fun t' => if String.eqb (uuid t') (uuid t)
                                     then with_state "Cancelled" t' else t')
                          (remote_tasks w)) w)
      | None => (Raise (missing "MissingTaskException" (uuid t)), w)
      end
  | buckets _ => (Ok (map (fun b => {| bucket_uuid := fst b |})
                          (remote_buckets w)), w)
  | retrieve_bucket _ b =>
      match lookup b (remote_buckets w) with
      | Some _ => (Ok {| bucket_uuid := b |}, w)
      | None => (Raise (missing "MissingBucketException" b), w)
      end
  | list_files b =>
      match lookup (bucket_uuid b) (remote_buckets w) with
      | Some files => (Ok (map (fun f => {| key := fst f |}) files), w)
      | None => (Raise (missing "MissingBucketException" (bucket_uuid b)), w)
      end
  | get_file b remote local =>
      match lookup (bucket_uuid b) (remote_buckets w) with
      | Some files =>
          match lookup remote files with
          | Some content =>
              if existsb (String.eqb local) (read_only w)
              then (Raise (missing "PermissionError" local), w)
              else (Ok tt, write_file local content w)
          | None => (Raise (missing "MissingFileException" remote), w)
          end
      | None => (Raise (missing "MissingBucketException" (bucket_uuid b)), w)
      end
  end.

(** A sample account. *)

Definition ssh_forward : Forward :=
  {| application_port := 22; forwarder_host := "fwd.qarnot.net";
     forwarder_port := 30022 |}.

Definition web_forward : Forward :=
  {| application_port := 8080; forwarder_host := "fwd.qarnot.net";
     forwarder_port := 38080 |}.

Definition running_task : Task string :=
  {| uuid := "t-run"; name := "simulation"; state := "FullyExecuting";
     progress := "42.5"; instancecount := 2; running_instance_count := 2;
     running_core_count := 8; execution_time := "00:10:00";
     wall_time := "00:12:00"; creation_date := "2024-05-01 10:00:00";
     end_date := None;
     status := Present (Some {| running_instances_info := Present (Some
       {| per_running_instance_info := Present
            [ {| instance_id := 0;
                 active_forwards := Present [ssh_forward; web_forward] |};
              {| instance_id := 1; active_forwards := Missing |} ] |}) |}) |}.

Definition finished_task : Task string :=
  {| uuid := "t-done"; name := "meshing"; state := "Success";
     progress := "100.0"; instancecount := 1; running_instance_count := 0;
     running_core_count := 0; execution_time := "01:00:00";
     wall_time := "01:05:00"; creation_date := "2024-04-30 08:00:00";
     end_date := Some "2024-04-30 09:05:00";
     status := Present None |}.

Definition log_bytes : bytes := [Byte.x6f; Byte.x6b; Byte.x0a].

Definition account : World :=
  {| remote_tasks := [running_task; finished_task];
     stdout_capture := fun u i =>
       if String.eqb u "t-run"
       then match i with
            | Some 0%Z => Some "instance zero"
            | Some _ => Some ""
            | None => Some "all instances"
            end
       else None;
     stderr_capture := fun u i =>
       if String.eqb u "t-run"
       then match i with
            | Some 0%Z => Some "warning on zero"
            | Some _ => None
            | None => Some ""
            end
       else None;
     remote_buckets := [("results", [("out/log.txt", log_bytes)]);
                        ("scratch", [])];
     local_files := fun _ => None;
     read_only := ["/etc/passwd"] |}.

Definition empty_account : World :=
  {| remote_tasks := []; stdout_capture := fun _ _ => None;
     stderr_capture := fun _ _ => None; remote_buckets := [];
     local_files := fun _ => None; read_only := [] |}.

(** A [.env] loader that finds no file, and two process environments. *)
Definition no_dotenv (env : environ) : environ := env.

Definition env_with_token : environ :=
  fun k => if String.eqb k "QARNOT_TOKEN" then Some "secret" else None.

Definition env_without_token : environ := fun _ => None.

End Mock.

(** [import mcp_server]: the credential check comes first and the tool
    registrations after it, so the tool table exists only once the check has
    passed, and every tool in it closes over the checked token. *)
Definition load_module {object : Type} (str : object -> string)
  {Connection : Type} (load_dotenv : environ -> environ) (os_environ : environ)
  : result (tool_call -> prog object Connection string) :=
  match startup load_dotenv os_environ with
  | Ok QARNOT_TOKEN => Ok (invoke str QARNOT_TOKEN)
  | Raise e => Raise e
  end.

(** What the specification's sentence on [list_buckets] describes: a flat JSON
    array holding the identifiers themselves (kept apart from the code's
    [list_buckets], to be compared with it). *)
Definition list_buckets_flat_output (bs : list Bucket) : string :=
  match bs with
  | [] => "No buckets found."
  | _ :: _ => dumps (JArr (map (fun b => JStr (bucket_uuid b)) bs))
  end.

(** A task whose status carries no forward: one of the nested attributes is
    missing, [None] or empty, down to the forwards of each instance. *)
Inductive no_forward_info {object : Type} (task : Task object) : Prop :=
| no_status_attribute :
    status task = Missing -> no_forward_info task
| status_is_none :
    status task = Present None -> no_forward_info task
| no_running_instances_info : forall task_status,
    status task = Present (Some task_status) ->
    running_instances_info task_status = Missing \/
    running_instances_info task_status = Present None ->
    no_forward_info task
| no_per_running_instance_info : forall task_status running_info,
    status task = Present (Some task_status) ->
    running_instances_info task_status = Present (Some running_info) ->
    per_running_instance_info running_info = Missing ->
    no_forward_info task
| no_active_forwards : forall task_status running_info instances,
    status task = Present (Some task_status) ->
    running_instances_info task_status = Present (Some running_info) ->
    per_running_instance_info running_info = Present instances ->
    Forall (fun instance => active_forwards instance = Missing \/
                            active_forwards instance = Present [])
           instances ->
    no_forward_info task.

(** The eight fields of a task summary, in the order the dict is built. *)
Definition summary_keys : list string :=
  ["uuid"; "name"; "state"; "progress"; "instance_count";
   "running_instances"; "creation_date"; "end_date"].

(** The descriptor appended for a reported forward. *)
Definition describe (reported : Instance * Forward) : json :=
  forward_descriptor (fst reported) (snd reported).

(** ** Counting calls of a kind *)

Definition is_connection {object Connection : Type}
  (op : sdk_op object Connection) : bool :=
  match op with
  | NewConnection _ => true
  | _ => false
  end.

Definition is_get_file {object Connection : Type}
  (op : sdk_op object Connection) : bool :=
  match op with
  | get_file _ _ _ => true
  | _ => false
  end.

Definition count_calls {object Connection : Type}
  (kind : sdk_op object Connection -> bool)
  (calls : list (sdk_op object Connection)) : nat :=
  List.length (filter kind calls).

Definition is_stdout {object Connection : Type}
  (op : sdk_op object Connection) : bool :=
  match op with
  | stdout _ _ => true
  | _ => false
  end.

Definition is_stderr {object Connection : Type}
  (op : sdk_op object Connection) : bool :=
  match op with
  | stderr _ _ => true
  | _ => false
  end.

(** The fields of a dumped dict. *)
Definition fields_of (v : json) : list (string * json) :=
  match v with
  | JObj fields => fields
  | _ => []
  end.

(** ** A collaborator that checks the token *)

Module Guarded.

Definition handle (op : sdk_op string string) (w : Mock.World)
  : result (answer op) * Mock.World :=
  match op as o
        return result (answer o) * Mock.World -> result (answer o) * Mock.World
  with
  | NewConnection token =>
      fun accepted =>
        if String.eqb token "secret" then accepted
        else (Raise (Exn "UnauthorizedException" "invalid token"), w)
  | _ => fun answered => answered
  end (Mock.handle op w).

End Guarded.

(** An account whose one task has printed, on each stream, the very text
    the tools use as a placeholder. *)
Definition placeholder_account : Mock.World :=
  {| Mock.remote_tasks := [Mock.running_task];
     Mock.stdout_capture := fun _ _ => Some "(no output)";
     Mock.stderr_capture := fun _ _ => Some "(no error output)";
     Mock.remote_buckets := [];
     Mock.local_files := fun _ => None;
     Mock.read_only := [] |}.

(** * Properties *)

(** ** The encoder on small values *)

Example dumps_empty_list : dumps (JArr []) = "[]".
Proof. reflexivity. Qed.

Example dumps_nested :
  dumps (JArr [JObj [("name", JStr "b"); ("n", JInt (-12))]; JNull])
  = "[" ++ nl ++ "  {" ++ nl
        ++ "    " ++ q ++ "name" ++ q ++ ": " ++ q ++ "b" ++ q ++ "," ++ nl
        ++ "    " ++ q ++ "n" ++ q ++ ": -12" ++ nl
        ++ "  }," ++ nl ++ "  null" ++ nl ++ "]".
Proof. reflexivity. Qed.

Example dumps_escapes :
  dumps (JStr (String (ascii_of_nat 233) ("a\" ++ q ++ nl)))
  = q ++ "\u00e9a\\\" ++ q ++ "\n" ++ q.
Proof. reflexivity. Qed.

(** ** Strings *)

Lemma append_assoc (a b c : string) : (a ++ b) ++ c = a ++ (b ++ c).
Proof. induction a as [| x a IH]; cbn; [reflexivity | now rewrite IH]. Qed.

Lemma contains_here (needle after : string) :
  contains needle (needle ++ after).
Proof. exists "", after. reflexivity. Qed.

Lemma contains_skip (needle before rest : string) :
  contains needle rest -> contains needle (before ++ rest).
Proof.
  intros [b [a Hrest]]. exists (before ++ b), a.
  rewrite Hrest. symmetry. apply append_assoc.
Qed.

Lemma terminal_spec (s : string) :
  terminal s = true <-> In s ["Cancelled"; "Success"; "Failure"].
Proof.
  unfold terminal. rewrite existsb_exists. split.
  - intros [x [Hin Heq]]. apply String.eqb_eq in Heq. now subst x.
  - intros Hin. exists s. split; [exact Hin | apply String.eqb_refl].
Qed.

Lemma terminal_false (s : string) :
  ~ In s ["Cancelled"; "Success"; "Failure"] -> terminal s = false.
Proof.
  intros Hnot. destruct (terminal s) eqn:E; [| reflexivity].
  apply terminal_spec in E. contradiction.
Qed.

(** ** Stepping a run *)

Section Stepping.

Context {object Connection World : Type}.
Variable h : handler object Connection World.

Lemma run_call_ok {A : Type} (op : sdk_op object Connection)
  (k : answer op -> prog object Connection A) (w w' : World) (x : answer op) :
  h op w = (Ok x, w') ->
  run h (bind (call op) k) w
  = {| returned := returned (run h (k x) w');
       final := final (run h (k x) w');
       trace := op :: trace (run h (k x) w') |}.
Proof. intros H. cbn. rewrite H. reflexivity. Qed.

Lemma run_call_raise {A : Type} (op : sdk_op object Connection)
  (k : answer op -> prog object Connection A) (w w' : World) (e : exn) :
  h op w = (Raise e, w') ->
  run h (bind (call op) k) w
  = {| returned := Raise e; final := w'; trace := [op] |}.
Proof. intros H. cbn. rewrite H. reflexivity. Qed.

End Stepping.

(** ** Cancelling *)

(** C1.  When the task fetched for [uuid] is in state Cancelled, Success or
    Failure, [cancel_task] makes the two reads and nothing else: there is no
    abort call, the collaborator stays in the state the reads left it in, and
    the returned message carries the state verbatim. *)
Theorem cancel_task_terminal_no_abort :
  forall (object Connection World : Type)
         (h : handler object Connection World)
         (token uuid : string) (w w1 w2 : World)
         (conn : Connection) (task : Task object),
    h (NewConnection token) w = (Ok conn, w1) ->
    h (retrieve_task conn uuid) w1 = (Ok task, w2) ->
    In (state task) ["Cancelled"; "Success"; "Failure"] ->
    let o := run h (cancel_task token uuid) w in
    trace o = [NewConnection token; retrieve_task conn uuid]
    /\ abort_count (trace o) = 0
    /\ final o = w2
    /\ returned o = Ok ("Task " ++ uuid ++ " is already in state '"
                          ++ state task ++ "' and cannot be cancelled.")
    /\ exists message, returned o = Ok message /\ contains (state task) message.
Proof.
  intros object Connection World h token uuid w w1 w2 conn task Hconn Htask Hin o.
  apply terminal_spec in Hin.
  assert (Ho : o = {| returned := Ok ("Task " ++ uuid ++ " is already in state '"
                          ++ state task ++ "' and cannot be cancelled.");
                      final := w2;
                      trace := [NewConnection token; retrieve_task conn uuid] |}).
  { subst o. unfold cancel_task, get_connection.
    rewrite (run_call_ok h _ _ _ _ _ Hconn).
    rewrite (run_call_ok h _ _ _ _ _ Htask).
    rewrite Hin. reflexivity. }
  rewrite Ho. do 4 (split; [reflexivity |]).
  eexists. split; [reflexivity |].
  do 3 apply contains_skip. apply contains_here.
Qed.

Lemma cancel_task_terminal_no_abort_witness :
  trace (run Mock.handle (cancel_task "secret" "t-done") Mock.account)
  = [NewConnection "secret"; retrieve_task "secret" "t-done"]
  /\ abort_count
       (trace (run Mock.handle (cancel_task "secret" "t-done") Mock.account))
     = 0
  /\ final (run Mock.handle (cancel_task "secret" "t-done") Mock.account)
     = Mock.account
  /\ returned (run Mock.handle (cancel_task "secret" "t-done") Mock.account)
     = Ok "Task t-done is already in state 'Success' and cannot be cancelled."
  /\ exists message,
       returned (run Mock.handle (cancel_task "secret" "t-done") Mock.account)
       = Ok message
       /\ contains "Success" message.
Proof.
  apply (cancel_task_terminal_no_abort string string Mock.World Mock.handle
           "secret" "t-done" Mock.account Mock.account Mock.account
           "secret" Mock.finished_task).
  - reflexivity.
  - reflexivity.
  - right. left. reflexivity.
Defined.

(** C3.  When the task fetched for [uuid] is in none of the three terminal
    states, [cancel_task] calls [abort] on it exactly once, after the two
    reads; when the abort goes through, the collaborator is left in the state
    the abort produced and the returned confirmation carries the uuid; when
    it raises, that exception is the outcome. *)
Theorem cancel_task_live_aborts_once :
  forall (object Connection World : Type)
         (h : handler object Connection World)
         (token uuid : string) (w w1 w2 : World)
         (conn : Connection) (task : Task object),
    h (NewConnection token) w = (Ok conn, w1) ->
    h (retrieve_task conn uuid) w1 = (Ok task, w2) ->
    ~ In (state task) ["Cancelled"; "Success"; "Failure"] ->
    let o := run h (cancel_task token uuid) w in
    trace o = [NewConnection token; retrieve_task conn uuid; abort task]
    /\ abort_count (trace o) = 1
    /\ (forall w3, h (abort task) w2 = (Ok tt, w3) ->
          final o = w3
          /\ returned o = Ok ("Task " ++ uuid ++ " has been cancelled.")
          /\ exists message, returned o = Ok message /\ contains uuid message)
    /\ (forall e w3, h (abort task) w2 = (Raise e, w3) ->
          returned o = Raise e /\ final o = w3).
Proof.
  intros object Connection World h token uuid w w1 w2 conn task
         Hconn Htask Hlive o.
  apply terminal_false in Hlive.
  assert (Hrun : o = run h (cancel_task token uuid) w) by reflexivity.
  unfold cancel_task, get_connection in Hrun.
  rewrite (run_call_ok h _ _ _ _ _ Hconn) in Hrun.
  rewrite (run_call_ok h _ _ _ _ _ Htask) in Hrun.
  rewrite Hlive in Hrun.
  destruct (h (abort task) w2) as [[[] | e] w3] eqn:Habort.
  - rewrite (run_call_ok h _ _ _ _ _ Habort) in Hrun.
    rewrite Hrun. split; [reflexivity |]. split; [reflexivity |]. split.
    + intros w3' Heq. injection Heq as <-.
      split; [reflexivity |]. split; [reflexivity |].
      eexists. split; [reflexivity |].
      apply contains_skip. apply contains_here.
    + intros e w3' Heq. discriminate Heq.
  - rewrite (run_call_raise h _ _ _ _ _ Habort) in Hrun.
    rewrite Hrun. split; [reflexivity |]. split; [reflexivity |]. split.
    + intros w3' Heq. discriminate Heq.
    + intros e' w3' Heq. injection Heq as <- <-. split; reflexivity.
Qed.

Lemma cancel_task_live_aborts_once_witness :
  trace (run Mock.handle (cancel_task "secret" "t-run") Mock.account)
  = [NewConnection "secret"; retrieve_task "secret" "t-run";
     abort Mock.running_task]
  /\ abort_count
       (trace (run Mock.handle (cancel_task "secret" "t-run") Mock.account))
     = 1
  /\ returned (run Mock.handle (cancel_task "secret" "t-run") Mock.account)
     = Ok "Task t-run has been cancelled."
  /\ map state
       (Mock.remote_tasks
          (final (run Mock.handle (cancel_task "secret" "t-run") Mock.account)))
     = ["Cancelled"; "Success"].
Proof.
  destruct (cancel_task_live_aborts_once string string Mock.World Mock.handle
              "secret" "t-run" Mock.account Mock.account Mock.account
              "secret" Mock.running_task eq_refl eq_refl)
    as [Htrace [Hcount [Hok _]]].
  - cbn. intros [H | [H | [H | []]]]; discriminate H.
  - destruct (Hok _ eq_refl) as [Hfinal [Hret _]].
    split; [exact Htrace |]. split; [exact Hcount |].
    split; [exact Hret |]. rewrite Hfinal. reflexivity.
Defined.

(** ** Listing tasks *)

Lemma task_summary_shape {object : Type} (str : object -> string)
  (task : Task object) :
  exists fields,
    task_summary str task = JObj fields
    /\ keys fields = summary_keys
    /\ (end_date task = None -> get "end_date" fields = Some (JStr "N/A"))
    /\ (forall d, end_date task = Some d ->
          get "end_date" fields = Some (JStr (str d))).
Proof.
  eexists. split; [reflexivity |]. split; [reflexivity |]. split.
  - intros Hnone. cbn. now rewrite Hnone.
  - intros d Hsome. cbn. now rewrite Hsome.
Qed.

(** C5.  Over the tasks the collaborator lists, [list_tasks] returns the
    dump of a JSON array with one object per task, in order.  The object of
    a task has exactly the eight keys uuid, name, state, progress,
    instance_count, running_instances, creation_date and end_date, and each
    holds that task's value: its uuid, name and state, its progress followed
    by a percent sign, its two instance counts, its creation date as a
    string, and its end date as a string, or the string N/A when the task
    has no end date.  Over no task at all the returned text is the two
    characters of the empty array. *)
Theorem list_tasks_one_object_per_task :
  forall (object Connection World : Type) (str : object -> string)
         (h : handler object Connection World)
         (token : string) (w w1 w2 : World)
         (conn : Connection) (listed : list (Task object)),
    h (NewConnection token) w = (Ok conn, w1) ->
    h (tasks conn) w1 = (Ok listed, w2) ->
    let o := run h (list_tasks str token) w in
    (listed = [] -> returned o = Ok "[]")
    /\ exists objects,
         returned o = Ok (dumps (JArr objects))
         /\ List.length objects = List.length listed
         /\ Forall2
              (fun task obj =>
                 exists fields,
                   obj = JObj fields
                   /\ keys fields = summary_keys
                   /\ get "uuid" fields = Some (JStr (uuid task))
                   /\ get "name" fields = Some (JStr (name task))
                   /\ get "state" fields = Some (JStr (state task))
                   /\ get "progress" fields
                      = Some (JStr (str (progress task) ++ "%"))
                   /\ get "instance_count" fields
                      = Some (JInt (instancecount task))
                   /\ get "running_instances" fields
                      = Some (JInt (running_instance_count task))
                   /\ get "creation_date" fields
                      = Some (JStr (str (creation_date task)))
                   /\ (forall d, end_date task = Some d ->
                       get "end_date" fields = Some (JStr (str d)))
                   /\ (end_date task = None ->
                       get "end_date" fields = Some (JStr "N/A")))
              listed objects.
Proof.
  intros object Connection World str h token w w1 w2 conn listed Hconn Hlist o.
  assert (Ho : returned o = Ok (dumps (JArr (map (task_summary str) listed)))).
  { subst o. unfold list_tasks, get_connection.
    rewrite (run_call_ok h _ _ _ _ _ Hconn).
    rewrite (run_call_ok h _ _ _ _ _ Hlist). reflexivity. }
  split.
  - intros ->. exact Ho.
  - exists (map (task_summary str) listed).
    split; [exact Ho |]. split; [apply length_map |].
    clear Hlist Ho o. induction listed as [| task rest IH]; cbn [map].
    + constructor.
    + constructor; [| exact IH].
      destruct (task_summary_shape str task)
        as [fields [Hobj [Hkeys [Hna Hdate]]]].
      exists fields. rewrite Hobj. split; [reflexivity |].
      split; [exact Hkeys |].
      unfold task_summary in Hobj. injection Hobj as <-.
      do 7 (split; [reflexivity |]). split; assumption.
Qed.

Lemma list_tasks_one_object_per_task_witness :
  (Mock.remote_tasks Mock.account = [] ->
   returned (run Mock.handle (list_tasks (fun s => s) "secret") Mock.account)
   = Ok "[]")
  /\ exists objects,
       returned (run Mock.handle (list_tasks (fun s => s) "secret") Mock.account)
       = Ok (dumps (JArr objects))
       /\ List.length objects = 2
       /\ Forall2
            (fun task obj =>
               exists fields,
                 obj = JObj fields
                 /\ keys fields = summary_keys
                 /\ get "uuid" fields = Some (JStr (uuid task))
                 /\ get "name" fields = Some (JStr (name task))
                 /\ get "state" fields = Some (JStr (state task))
                 /\ get "progress" fields
                    = Some (JStr (progress task ++ "%"))
                 /\ get "instance_count" fields
                    = Some (JInt (instancecount task))
                 /\ get "running_instances" fields
                    = Some (JInt (running_instance_count task))
                 /\ get "creation_date" fields
                    = Some (JStr (creation_date task))
                 /\ (forall d, end_date task = Some d ->
                     get "end_date" fields = Some (JStr d))
                 /\ (end_date task = None ->
                     get "end_date" fields = Some (JStr "N/A")))
            [Mock.running_task; Mock.finished_task] objects.
Proof.
  apply (list_tasks_one_object_per_task string string Mock.World (fun s => s)
           Mock.handle "secret" Mock.account Mock.account Mock.account
           "secret" [Mock.running_task; Mock.finished_task]).
  - reflexivity.
  - reflexivity.
Defined.

(** ** Listing buckets and files *)

(** C2, as the code has it.  [list_buckets] returns the sentence
    [No buckets found.] over no bucket, and otherwise the dump of a JSON array
    with one object per bucket, whose single field [name] holds the bucket's
    identifier; [list_bucket_files] returns [No files in bucket.] over no
    file, and otherwise the dump of the JSON array of the file keys. *)
Theorem list_buckets_and_files_output :
  forall (object Connection World : Type)
         (h : handler object Connection World)
         (token : string) (w w1 : World) (conn : Connection),
    h (NewConnection token) w = (Ok conn, w1) ->
    (forall found w2,
        h (buckets conn) w1 = (Ok found, w2) ->
        returned (run h (list_buckets token) w)
        = Ok match found with
             | [] => "No buckets found."
             | _ :: _ =>
                 dumps (JArr (map (fun b => JObj [("name", JStr (bucket_uuid b))])
                                  found))
             end)
    /\ (forall bucket_name bucket w2 listed w3,
          h (retrieve_bucket conn bucket_name) w1 = (Ok bucket, w2) ->
          h (list_files bucket) w2 = (Ok listed, w3) ->
          returned (run h (list_bucket_files token bucket_name) w)
          = Ok match listed with
               | [] => "No files in bucket."
               | _ :: _ => dumps (JArr (map (fun f => JStr (key f)) listed))
               end).
Proof.
  intros object Connection World h token w w1 conn Hconn. split.
  - intros found w2 Hfound.
    unfold list_buckets, get_connection.
    rewrite (run_call_ok h _ _ _ _ _ Hconn).
    rewrite (run_call_ok h _ _ _ _ _ Hfound).
    destruct found; reflexivity.
  - intros bucket_name bucket w2 listed w3 Hbucket Hlisted.
    unfold list_bucket_files, get_connection.
    rewrite (run_call_ok h _ _ _ _ _ Hconn).
    rewrite (run_call_ok h _ _ _ _ _ Hbucket).
    rewrite (run_call_ok h _ _ _ _ _ Hlisted).
    destruct listed; [reflexivity |].
    cbn [run returned map]. now rewrite map_map.
Qed.

Lemma list_buckets_and_files_output_witness :
  returned (run Mock.handle (list_buckets "secret") Mock.account)
  = Ok (dumps (JArr [JObj [("name", JStr "results")];
                     JObj [("name", JStr "scratch")]]))
  /\ returned (run Mock.handle (list_buckets "secret") Mock.empty_account)
     = Ok "No buckets found."
  /\ returned (run Mock.handle (list_bucket_files "secret" "results")
                 Mock.account)
     = Ok (dumps (JArr [JStr "out/log.txt"]))
  /\ returned (run Mock.handle (list_bucket_files "secret" "scratch")
                 Mock.account)
     = Ok "No files in bucket.".
Proof.
  destruct (list_buckets_and_files_output string string Mock.World Mock.handle
              "secret" Mock.account Mock.account "secret" eq_refl)
    as [Hbuckets Hfiles].
  destruct (list_buckets_and_files_output string string Mock.World Mock.handle
              "secret" Mock.empty_account Mock.empty_account "secret" eq_refl)
    as [Hnone _].
  split; [exact (Hbuckets _ _ eq_refl) |].
  split; [exact (Hnone _ _ eq_refl) |].
  split.
  - exact (Hfiles "results" _ _ _ _ eq_refl eq_refl).
  - exact (Hfiles "scratch" _ _ _ _ eq_refl eq_refl).
Defined.

(** C2, as the specification words it, fails: with the two buckets of the
    sample account the returned text is the dump of an array of objects, which
    is not the dump of the array of the two identifiers. *)
Lemma list_buckets_not_flat_identifiers :
  exists found output,
    Mock.handle (buckets "secret") Mock.account = (Ok found, Mock.account)
    /\ returned (run Mock.handle (list_buckets "secret") Mock.account)
       = Ok output
    /\ found = [ {| bucket_uuid := "results" |}; {| bucket_uuid := "scratch" |} ]
    /\ output <> list_buckets_flat_output found.
Proof.
  eexists. eexists.
  split; [reflexivity |]. split; [reflexivity |]. split; [reflexivity |].
  vm_compute. discriminate.
Qed.

(** ** Reading captured output *)

Lemma or_default_empty (capture : option string) (default : string) :
  capture = None \/ capture = Some "" -> or_default capture default = default.
Proof. intros [-> | ->]; reflexivity. Qed.

Lemma or_default_text (text default : string) :
  text <> "" -> or_default (Some text) default = text.
Proof. destruct text; [congruence | reflexivity]. Qed.

Lemma or_default_cases (capture : option string) (default : string) :
  default <> "" ->
  (capture = None \/ capture = Some "" -> Ok (or_default capture default) = Ok default)
  /\ (forall text, capture = Some text -> text <> "" ->
      Ok (or_default capture default) = Ok text)
  /\ (Ok (or_default capture default) = Ok default ->
      capture = None \/ capture = Some "" \/ capture = Some default).
Proof.
  intros Hdefault. split; [| split].
  - intros Hempty. now rewrite or_default_empty.
  - intros text -> Htext. now rewrite or_default_text.
  - destruct capture as [[| c rest] |]; auto.
    cbn. intros Hsame. injection Hsame as Hsame.
    right. right. now rewrite Hsame.
Qed.

Section Reads.

Context {object Connection World : Type}.
Variable h : handler object Connection World.
Variables (token uuid : string) (instance_id : option Z).
Variables (w w1 w2 : World) (conn : Connection) (task : Task object).
Hypothesis Hconn : h (NewConnection token) w = (Ok conn, w1).
Hypothesis Htask : h (retrieve_task conn uuid) w1 = (Ok task, w2).

Lemma get_task_stdout_calls :
  trace (run h (get_task_stdout token uuid instance_id) w)
  = [NewConnection token; retrieve_task conn uuid; stdout task instance_id].
Proof.
  unfold get_task_stdout, get_connection.
  rewrite (run_call_ok h _ _ _ _ _ Hconn).
  rewrite (run_call_ok h _ _ _ _ _ Htask).
  destruct instance_id as [i |].
  - destruct (h (stdout task (Some i)) w2) as [[capture | e] w3] eqn:Hread.
    + now rewrite (run_call_ok h _ _ _ _ _ Hread).
    + now rewrite (run_call_raise h _ _ _ _ _ Hread).
  - destruct (h (stdout task None) w2) as [[capture | e] w3] eqn:Hread.
    + now rewrite (run_call_ok h _ _ _ _ _ Hread).
    + now rewrite (run_call_raise h _ _ _ _ _ Hread).
Qed.

Lemma get_task_stderr_calls :
  trace (run h (get_task_stderr token uuid instance_id) w)
  = [NewConnection token; retrieve_task conn uuid; stderr task instance_id].
Proof.
  unfold get_task_stderr, get_connection.
  rewrite (run_call_ok h _ _ _ _ _ Hconn).
  rewrite (run_call_ok h _ _ _ _ _ Htask).
  destruct instance_id as [i |].
  - destruct (h (stderr task (Some i)) w2) as [[capture | e] w3] eqn:Hread.
    + now rewrite (run_call_ok h _ _ _ _ _ Hread).
    + now rewrite (run_call_raise h _ _ _ _ _ Hread).
  - destruct (h (stderr task None) w2) as [[capture | e] w3] eqn:Hread.
    + now rewrite (run_call_ok h _ _ _ _ _ Hread).
    + now rewrite (run_call_raise h _ _ _ _ _ Hread).
Qed.

Lemma get_task_stdout_returns (capture : option string) (w3 : World) :
  h (stdout task instance_id) w2 = (Ok capture, w3) ->
  returned (run h (get_task_stdout token uuid instance_id) w)
  = Ok (or_default capture "(no output)").
Proof.
  intros Hread. unfold get_task_stdout, get_connection.
  rewrite (run_call_ok h _ _ _ _ _ Hconn).
  rewrite (run_call_ok h _ _ _ _ _ Htask).
  destruct instance_id; now rewrite (run_call_ok h _ _ _ _ _ Hread).
Qed.

Lemma get_task_stderr_returns (capture : option string) (w3 : World) :
  h (stderr task instance_id) w2 = (Ok capture, w3) ->
  returned (run h (get_task_stderr token uuid instance_id) w)
  = Ok (or_default capture "(no error output)").
Proof.
  intros Hread. unfold get_task_stderr, get_connection.
  rewrite (run_call_ok h _ _ _ _ _ Hconn).
  rewrite (run_call_ok h _ _ _ _ _ Htask).
  destruct instance_id; now rewrite (run_call_ok h _ _ _ _ _ Hread).
Qed.

End Reads.

(** C6, as the code has it.  Once the task is fetched, [get_task_stdout]
    reads the capture with the accessor applied to the very [instance_id] it
    was given (so a given instance scopes the read to that instance), returns
    [(no output)] when the capture is [None] or the empty string, and returns
    the captured text itself, unmodified, when it is a non-empty text.  Hence
    [(no output)] comes back only for a capture that is absent, empty, or
    that very text.  [get_task_stderr] does the same on the error stream with
    [(no error output)]. *)
Theorem task_output_or_placeholder :
  forall (object Connection World : Type)
         (h : handler object Connection World)
         (token uuid : string) (instance_id : option Z) (w w1 w2 : World)
         (conn : Connection) (task : Task object),
    h (NewConnection token) w = (Ok conn, w1) ->
    h (retrieve_task conn uuid) w1 = (Ok task, w2) ->
    (forall capture w3,
        h (stdout task instance_id) w2 = (Ok capture, w3) ->
        let o := run h (get_task_stdout token uuid instance_id) w in
        trace o = [NewConnection token; retrieve_task conn uuid;
                   stdout task instance_id]
        /\ (capture = None \/ capture = Some "" ->
            returned o = Ok "(no output)")
        /\ (forall text, capture = Some text -> text <> "" ->
            returned o = Ok text)
        /\ (returned o = Ok "(no output)" ->
            capture = None \/ capture = Some ""
            \/ capture = Some "(no output)"))
    /\ (forall capture w3,
          h (stderr task instance_id) w2 = (Ok capture, w3) ->
          let o := run h (get_task_stderr token uuid instance_id) w in
          trace o = [NewConnection token; retrieve_task conn uuid;
                     stderr task instance_id]
          /\ (capture = None \/ capture = Some "" ->
              returned o = Ok "(no error output)")
          /\ (forall text, capture = Some text -> text <> "" ->
              returned o = Ok text)
          /\ (returned o = Ok "(no error output)" ->
              capture = None \/ capture = Some ""
              \/ capture = Some "(no error output)")).
Proof.
  intros object Connection World h token uuid instance_id w w1 w2 conn task
         Hconn Htask.
  split; intros capture w3 Hread o; subst o.
  - split; [apply (get_task_stdout_calls h _ _ _ _ _ _ _ _ Hconn Htask) |].
    rewrite (get_task_stdout_returns h _ _ _ _ _ _ _ _ Hconn Htask _ _ Hread).
    apply or_default_cases. discriminate.
  - split; [apply (get_task_stderr_calls h _ _ _ _ _ _ _ _ Hconn Htask) |].
    rewrite (get_task_stderr_returns h _ _ _ _ _ _ _ _ Hconn Htask _ _ Hread).
    apply or_default_cases. discriminate.
Qed.

Lemma task_output_or_placeholder_witness :
  (trace (run Mock.handle (get_task_stdout "secret" "t-run" (Some 1%Z))
            Mock.account)
   = [NewConnection "secret"; retrieve_task "secret" "t-run";
      stdout Mock.running_task (Some 1%Z)]
   /\ returned (run Mock.handle (get_task_stdout "secret" "t-run" (Some 1%Z))
                  Mock.account)
      = Ok "(no output)")
  /\ returned (run Mock.handle (get_task_stderr "secret" "t-run" (Some 1%Z))
                 Mock.account)
     = Ok "(no error output)".
Proof.
  destruct (task_output_or_placeholder string string Mock.World Mock.handle
              "secret" "t-run" (Some 1%Z) Mock.account Mock.account
              Mock.account "secret" Mock.running_task eq_refl eq_refl)
    as [Hout Herr].
  destruct (Hout (Some "") Mock.account eq_refl) as [Hcalls [Hempty _]].
  destruct (Herr None Mock.account eq_refl) as [_ [Habsent _]].
  split; [split |].
  - exact Hcalls.
  - apply Hempty. right. reflexivity.
  - apply Habsent. left. reflexivity.
Defined.

(** C6, as the specification words it, fails: the placeholder is not
    returned exactly when the capture is empty or absent.  A task that has
    printed [(no output)] has a capture that is neither, and the tool returns
    [(no output)] for it; likewise on the error stream. *)
Lemma placeholder_returned_for_a_non_empty_capture :
  (Mock.handle (stdout Mock.running_task None) placeholder_account
   = (Ok (Some "(no output)"), placeholder_account)
   /\ ~ (returned (run Mock.handle (get_task_stdout "secret" "t-run" None)
                     placeholder_account)
         = Ok "(no output)"
         <-> Some "(no output)" = None \/ Some "(no output)" = Some ""))
  /\ (Mock.handle (stderr Mock.running_task None) placeholder_account
      = (Ok (Some "(no error output)"), placeholder_account)
      /\ ~ (returned (run Mock.handle (get_task_stderr "secret" "t-run" None)
                        placeholder_account)
            = Ok "(no error output)"
            <-> Some "(no error output)" = None
                \/ Some "(no error output)" = Some "")).
Proof.
  split; (split; [reflexivity |]); intros [Honly _];
    destruct (Honly eq_refl) as [Habsent | Hempty]; discriminate.
Qed.

(** C9.  With [instance_id] equal to 0 the per-instance accessor is the one
    called, with 0: the last call of [get_task_stdout] is [stdout(0)] and that
    of [get_task_stderr] is [stderr(0)].  The whole-task read is among the
    calls exactly when [instance_id] is [None]. *)
Theorem instance_zero_is_an_instance :
  forall (object Connection World : Type)
         (h : handler object Connection World)
         (token uuid : string) (w w1 w2 : World)
         (conn : Connection) (task : Task object),
    h (NewConnection token) w = (Ok conn, w1) ->
    h (retrieve_task conn uuid) w1 = (Ok task, w2) ->
    trace (run h (get_task_stdout token uuid (Some 0%Z)) w)
    = [NewConnection token; retrieve_task conn uuid; stdout task (Some 0%Z)]
    /\ trace (run h (get_task_stderr token uuid (Some 0%Z)) w)
       = [NewConnection token; retrieve_task conn uuid; stderr task (Some 0%Z)]
    /\ (forall instance_id,
          In (stdout task None)
             (trace (run h (get_task_stdout token uuid instance_id) w))
          <-> instance_id = None)
    /\ (forall instance_id,
          In (stderr task None)
             (trace (run h (get_task_stderr token uuid instance_id) w))
          <-> instance_id = None).
Proof.
  intros object Connection World h token uuid w w1 w2 conn task Hconn Htask.
  split; [apply (get_task_stdout_calls h _ _ _ _ _ _ _ _ Hconn Htask) |].
  split; [apply (get_task_stderr_calls h _ _ _ _ _ _ _ _ Hconn Htask) |].
  split; intros instance_id.
  - rewrite (get_task_stdout_calls h _ _ _ _ _ _ _ _ Hconn Htask). split.
    + intros [H | [H | [H | []]]]; try discriminate H.
      now injection H.
    + intros ->. cbn. auto.
  - rewrite (get_task_stderr_calls h _ _ _ _ _ _ _ _ Hconn Htask). split.
    + intros [H | [H | [H | []]]]; try discriminate H.
      now injection H.
    + intros ->. cbn. auto.
Qed.

Lemma instance_zero_is_an_instance_witness :
  trace (run Mock.handle (get_task_stdout "secret" "t-run" (Some 0%Z))
           Mock.account)
  = [NewConnection "secret"; retrieve_task "secret" "t-run";
     stdout Mock.running_task (Some 0%Z)]
  /\ returned (run Mock.handle (get_task_stdout "secret" "t-run" (Some 0%Z))
                 Mock.account)
     = Ok "instance zero".
Proof.
  split.
  - exact (proj1 (instance_zero_is_an_instance string string Mock.World
                    Mock.handle "secret" "t-run" Mock.account
                    Mock.account Mock.account "secret"
                    Mock.running_task eq_refl eq_refl)).
  - reflexivity.
Defined.

(** ** Downloading *)

(** C7.  Once the connection is made and the bucket fetched, [download_result]
    makes one further call, [get_file] on that bucket with the remote and the
    local path it was given.  When that call succeeds (the collaborator has
    copied the file), the tool leaves the collaborator's state exactly as the
    copy produced it, local file included, and returns a confirmation that
    names the remote path, the bucket and the local path.  When it raises,
    as for a missing remote file, the outcome is that very exception and no
    confirmation. *)
Theorem download_result_copies_or_propagates :
  forall (object Connection World : Type)
         (h : handler object Connection World)
         (token bucket_name remote_path local_path : string)
         (w w1 w2 : World) (conn : Connection) (bucket : Bucket),
    h (NewConnection token) w = (Ok conn, w1) ->
    h (retrieve_bucket conn bucket_name) w1 = (Ok bucket, w2) ->
    let o := run h (download_result token bucket_name remote_path local_path) w
    in
    trace o = [NewConnection token; retrieve_bucket conn bucket_name;
               get_file bucket remote_path local_path]
    /\ (forall w3,
          h (get_file bucket remote_path local_path) w2 = (Ok tt, w3) ->
          final o = w3
          /\ returned o = Ok ("Downloaded '" ++ remote_path ++ "' from '"
                                ++ bucket_name ++ "' to '" ++ local_path ++ "'")
          /\ exists message,
               returned o = Ok message
               /\ contains remote_path message
               /\ contains bucket_name message
               /\ contains local_path message)
    /\ (forall e w3,
          h (get_file bucket remote_path local_path) w2 = (Raise e, w3) ->
          returned o = Raise e /\ final o = w3).
Proof.
  intros object Connection World h token bucket_name remote_path local_path
         w w1 w2 conn bucket Hconn Hbucket o.
  assert (Hrun : o = run h (download_result token bucket_name remote_path
                              local_path) w) by reflexivity.
  unfold download_result, get_connection in Hrun.
  rewrite (run_call_ok h _ _ _ _ _ Hconn) in Hrun.
  rewrite (run_call_ok h _ _ _ _ _ Hbucket) in Hrun.
  destruct (h (get_file bucket remote_path local_path) w2)
    as [[[] | e] w3] eqn:Hget.
  - rewrite (run_call_ok h _ _ _ _ _ Hget) in Hrun. rewrite Hrun.
    split; [reflexivity |]. split.
    + intros w3' Heq. injection Heq as <-.
      split; [reflexivity |]. split; [reflexivity |].
      eexists. split; [reflexivity |]. split; [| split].
      * apply contains_skip. apply contains_here.
      * do 3 apply contains_skip. apply contains_here.
      * do 5 apply contains_skip. apply contains_here.
    + intros e w3' Heq. discriminate Heq.
  - rewrite (run_call_raise h _ _ _ _ _ Hget) in Hrun. rewrite Hrun.
    split; [reflexivity |]. split.
    + intros w3' Heq. discriminate Heq.
    + intros e' w3' Heq. injection Heq as <- <-. split; reflexivity.
Qed.

Lemma download_result_copies_or_propagates_witness :
  (returned (run Mock.handle
               (download_result "secret" "results" "out/log.txt" "/tmp/log.txt")
               Mock.account)
   = Ok "Downloaded 'out/log.txt' from 'results' to '/tmp/log.txt'"
   /\ Mock.local_files
        (final (run Mock.handle
                  (download_result "secret" "results" "out/log.txt"
                     "/tmp/log.txt")
                  Mock.account))
        "/tmp/log.txt"
      = Some Mock.log_bytes)
  /\ returned (run Mock.handle
                 (download_result "secret" "results" "absent.txt" "/tmp/log.txt")
                 Mock.account)
     = Raise (Exn "MissingFileException" "absent.txt").
Proof.
  destruct (download_result_copies_or_propagates string string Mock.World
              Mock.handle "secret" "results" "out/log.txt" "/tmp/log.txt"
              Mock.account Mock.account Mock.account "secret"
              {| bucket_uuid := "results" |} eq_refl eq_refl)
    as [_ [Hcopied _]].
  destruct (download_result_copies_or_propagates string string Mock.World
              Mock.handle "secret" "results" "absent.txt" "/tmp/log.txt"
              Mock.account Mock.account Mock.account "secret"
              {| bucket_uuid := "results" |} eq_refl eq_refl)
    as [_ [_ Hmissing]].
  destruct (Hcopied _ eq_refl) as [Hfinal [Hret _]].
  split; [split |].
  - exact Hret.
  - rewrite Hfinal. reflexivity.
  - exact (proj1 (Hmissing _ _ eq_refl)).
Defined.

(** ** Startup and the credential *)

Section Connections.

Context {object Connection World : Type}.
Variable str : object -> string.
Variable h : handler object Connection World.
Variable token : string.

Ltac answer_calls :=
  repeat (cbn [run bind call returned final trace];
          match goal with
          | |- context [h ?op ?w] =>
              destruct (h op w) as [[? | ?] ?]
          | |- context [if terminal ?s then _ else _] =>
              destruct (terminal s)
          end);
  cbn [run bind call returned final trace].

Ltac only_connection :=
  split;
  [ eexists; reflexivity
  | intros t Hin; cbn [In] in Hin;
    repeat match goal with
           | H : _ \/ _ |- _ => destruct H as [H | H]
           end;
    solve [ contradiction | discriminate | (injection Hin as <-; reflexivity) ] ].

(** Every run of a tool starts by building a connection from the module's
    token, and builds no connection from anything else. *)
Lemma invoke_connects_with_token (c : tool_call) (w : World) :
  (exists rest, trace (run h (invoke str token c) w)
                = NewConnection token :: rest)
  /\ (forall t, In (NewConnection t) (trace (run h (invoke str token c) w)) ->
        t = token).
Proof.
  destruct c as [| u | u [i |] | u [i |] | u | | b | b r l];
    unfold invoke, list_tasks, get_task_status, get_task_stdout,
      get_task_stderr, cancel_task, list_buckets, list_bucket_files,
      download_result, get_connection;
    answer_calls; only_connection.
Qed.

End Connections.

(** C8.  Read through [load_dotenv], the environment either lacks
    [QARNOT_TOKEN] or holds it empty, and then the import stops on a
    [ValueError] whose message names the variable, so that no tool table
    comes to exist; or it holds a non-empty token, and then the import
    succeeds, the tool table is the tools closed over that token, and every
    run of every tool builds its connection from that token and from nothing
    else. *)
Theorem startup_checks_the_credential :
  forall (load_dotenv : environ -> environ) (os_environ : environ),
    (load_dotenv os_environ "QARNOT_TOKEN" = None
     \/ load_dotenv os_environ "QARNOT_TOKEN" = Some "" ->
     startup load_dotenv os_environ
     = Raise (ValueError "QARNOT_TOKEN environment variable is required")
     /\ contains "QARNOT_TOKEN"
          (exn_msg (ValueError "QARNOT_TOKEN environment variable is required"))
     /\ forall (object Connection : Type) (str : object -> string),
          @load_module object str Connection load_dotenv os_environ
          = Raise (ValueError "QARNOT_TOKEN environment variable is required"))
    /\ (forall token,
          load_dotenv os_environ "QARNOT_TOKEN" = Some token ->
          token <> "" ->
          startup load_dotenv os_environ = Ok token
          /\ forall (object Connection World : Type) (str : object -> string)
                    (h : handler object Connection World)
                    (c : tool_call) (w : World),
               @load_module object str Connection load_dotenv os_environ
               = Ok (invoke str token)
               /\ (exists rest,
                      trace (run h (invoke str token c) w)
                      = NewConnection token :: rest)
               /\ (forall t,
                      In (NewConnection t) (trace (run h (invoke str token c) w))
                      -> t = token)).
Proof.
  intros load_dotenv os_environ. split.
  - intros Habsent.
    assert (Hstart : startup load_dotenv os_environ
                     = Raise (ValueError
                                "QARNOT_TOKEN environment variable is required")).
    { unfold startup. destruct Habsent as [-> | ->]; reflexivity. }
    split; [exact Hstart |].
    split; [exists "", " environment variable is required"; reflexivity |].
    intros object Connection str. unfold load_module. now rewrite Hstart.
  - intros token Hpresent Hnonempty.
    assert (Hstart : startup load_dotenv os_environ = Ok token).
    { unfold startup. rewrite Hpresent.
      destruct token; [congruence | reflexivity]. }
    split; [exact Hstart |].
    intros object Connection World str h c w. split.
    + unfold load_module. now rewrite Hstart.
    + apply invoke_connects_with_token.
Qed.

Lemma startup_checks_the_credential_witness :
  startup Mock.no_dotenv Mock.env_without_token
  = Raise (ValueError "QARNOT_TOKEN environment variable is required")
  /\ startup Mock.no_dotenv Mock.env_with_token = Ok "secret"
  /\ forall t,
       In (NewConnection t)
          (trace (run Mock.handle
                    (invoke (fun s : string => s) "secret" (CancelTask "t-run"))
                    Mock.account)) ->
       t = "secret".
Proof.
  destruct (startup_checks_the_credential Mock.no_dotenv Mock.env_without_token)
    as [Hfails _].
  destruct (startup_checks_the_credential Mock.no_dotenv Mock.env_with_token)
    as [_ Hstarts].
  destruct (Hfails (or_introl eq_refl)) as [Hraise _].
  assert (Hne : "secret" <> "") by discriminate.
  destruct (Hstarts "secret" eq_refl Hne) as [Hok Htools].
  split; [exact Hraise |]. split; [exact Hok |].
  exact (proj2 (proj2 (Htools string string Mock.World (fun s => s) Mock.handle
                         (CancelTask "t-run") Mock.account))).
Defined.

(** ** Task status and forwards *)

Lemma ssh_info_describes_reported {object : Type} (task : Task object) :
  ssh_info task = map describe (reported_forwards task).
Proof.
  unfold ssh_info, reported_forwards.
  destruct (status task) as [| [task_status |]]; try reflexivity.
  destruct (running_instances_info task_status) as [| [running_info |]];
    try reflexivity.
  cbn [getattr].
  induction (getattr (per_running_instance_info running_info) [])
    as [| instance rest IH]; cbn [flat_map map].
  - reflexivity.
  - rewrite map_app, map_map, IH. reflexivity.
Qed.

Lemma forward_descriptor_fields (instance : Instance) (fwd : Forward) :
  exists fields,
    forward_descriptor instance fwd = JObj fields
    /\ get "instance_id" fields = Some (JInt (instance_id instance))
    /\ get "app_port" fields = Some (JInt (application_port fwd))
    /\ get "host" fields = Some (JStr (forwarder_host fwd))
    /\ get "port" fields = Some (JInt (forwarder_port fwd))
    /\ (application_port fwd = 22%Z ->
        get "ssh_command" fields
        = Some (JStr ("ssh -p " ++ str_int (forwarder_port fwd)
                        ++ " user@" ++ forwarder_host fwd)))
    /\ (application_port fwd <> 22%Z ->
        get "ssh_command" fields = Some JNull).
Proof.
  eexists. split; [reflexivity |]. do 4 (split; [reflexivity |]).
  cbn [get String.eqb Ascii.eqb Bool.eqb]. split.
  - intros ->. reflexivity.
  - intros Hother. apply Z.eqb_neq in Hother. now rewrite Hother.
Qed.

Lemma status_result_ssh_connections {object : Type} (str : object -> string)
  (task : Task object) :
  exists fields,
    status_result str task = JObj fields
    /\ get "ssh_connections" fields
       = Some match ssh_info task with
              | [] => JStr "No active SSH forwards"
              | _ :: _ => JArr (ssh_info task)
              end.
Proof. eexists. split; reflexivity. Qed.

Section Status.

Context {object Connection World : Type}.
Variable str : object -> string.
Variable h : handler object Connection World.
Variables (token uuid : string) (w w1 w2 w3 : World).
Variables (conn : Connection) (fetched task : Task object).
Hypothesis Hconn : h (NewConnection token) w = (Ok conn, w1).
Hypothesis Hfetch : h (retrieve_task conn uuid) w1 = (Ok fetched, w2).
Hypothesis Hupdate : h (update fetched true) w2 = (Ok task, w3).

Lemma get_task_status_returns :
  run h (get_task_status str token uuid) w
  = {| returned := Ok (dumps (status_result str task));
       final := w3;
       trace := [NewConnection token; retrieve_task conn uuid;
                 update fetched true] |}.
Proof.
  unfold get_task_status, get_connection.
  rewrite (run_call_ok h _ _ _ _ _ Hconn).
  rewrite (run_call_ok h _ _ _ _ _ Hfetch).
  rewrite (run_call_ok h _ _ _ _ _ Hupdate).
  reflexivity.
Qed.

End Status.

(** C4.  For the task as refreshed by [update], the object dumped by
    [get_task_status] has [ssh_connections] equal to the string
    [No active SSH forwards] exactly when the running instances report no
    active forward; otherwise it is a non-empty array with one descriptor per
    reported forward, in order, carrying the instance id, the application
    port, the forwarder host and port, and an [ssh_command] that is the ssh
    command line when the application port is 22 and null when it is not. *)
Theorem ssh_connections_follow_forwards :
  forall (object Connection World : Type) (str : object -> string)
         (h : handler object Connection World)
         (token uuid : string) (w w1 w2 w3 : World)
         (conn : Connection) (fetched task : Task object),
    h (NewConnection token) w = (Ok conn, w1) ->
    h (retrieve_task conn uuid) w1 = (Ok fetched, w2) ->
    h (update fetched true) w2 = (Ok task, w3) ->
    exists fields,
      returned (run h (get_task_status str token uuid) w)
      = Ok (dumps (JObj fields))
      /\ (get "ssh_connections" fields = Some (JStr "No active SSH forwards")
          <-> reported_forwards task = [])
      /\ (reported_forwards task <> [] ->
          exists descriptors,
            get "ssh_connections" fields = Some (JArr descriptors)
            /\ descriptors <> []
            /\ Forall2
                 (fun reported descriptor =>
                    exists dfields,
                      descriptor = JObj dfields
                      /\ get "instance_id" dfields
                         = Some (JInt (instance_id (fst reported)))
                      /\ get "app_port" dfields
                         = Some (JInt (application_port (snd reported)))
                      /\ get "host" dfields
                         = Some (JStr (forwarder_host (snd reported)))
                      /\ get "port" dfields
                         = Some (JInt (forwarder_port (snd reported)))
                      /\ (application_port (snd reported) = 22%Z ->
                          get "ssh_command" dfields
                          = Some (JStr ("ssh -p "
                                          ++ str_int (forwarder_port (snd reported))
                                          ++ " user@"
                                          ++ forwarder_host (snd reported))))
                      /\ (application_port (snd reported) <> 22%Z ->
                          get "ssh_command" dfields = Some JNull))
                 (reported_forwards task) descriptors).
Proof.
  intros object Connection World str h token uuid w w1 w2 w3 conn fetched task
         Hconn Hfetch Hupdate.
  rewrite (get_task_status_returns str h _ _ _ _ _ _ _ _ _ Hconn Hfetch Hupdate).
  cbn [returned].
  destruct (status_result_ssh_connections str task) as [fields [-> Hssh]].
  exists fields. split; [reflexivity |].
  rewrite Hssh, ssh_info_describes_reported.
  destruct (reported_forwards task) as [| reported others] eqn:Hreported.
  - split; [split; reflexivity |]. intros Hnonempty. contradiction.
  - cbn [map]. split; [split; discriminate |]. intros _.
    eexists. split; [reflexivity |]. split; [discriminate |].
    clear Hreported Hssh.
    change (Forall2
              (fun reported descriptor =>
                 exists dfields,
                   descriptor = JObj dfields
                   /\ get "instance_id" dfields
                      = Some (JInt (instance_id (fst reported)))
                   /\ get "app_port" dfields
                      = Some (JInt (application_port (snd reported)))
                   /\ get "host" dfields
                      = Some (JStr (forwarder_host (snd reported)))
                   /\ get "port" dfields
                      = Some (JInt (forwarder_port (snd reported)))
                   /\ (application_port (snd reported) = 22%Z ->
                       get "ssh_command" dfields
                       = Some (JStr ("ssh -p "
                                       ++ str_int (forwarder_port (snd reported))
                                       ++ " user@"
                                       ++ forwarder_host (snd reported))))
                   /\ (application_port (snd reported) <> 22%Z ->
                       get "ssh_command" dfields = Some JNull))
              (reported :: others) (map describe (reported :: others))).
    induction (reported :: others) as [| r rest IH]; cbn [map].
    + constructor.
    + constructor; [| exact IH].
      apply forward_descriptor_fields.
Qed.

Lemma ssh_connections_follow_forwards_witness :
  exists fields descriptors,
    returned (run Mock.handle
                (get_task_status (fun s : string => s) "secret" "t-run")
                Mock.account)
    = Ok (dumps (JObj fields))
    /\ get "ssh_connections" fields = Some (JArr descriptors)
    /\ List.length descriptors = 2
    /\ get "ssh_connections" fields <> Some (JStr "No active SSH forwards").
Proof.
  destruct (ssh_connections_follow_forwards string string Mock.World
              (fun s => s) Mock.handle "secret" "t-run"
              Mock.account Mock.account Mock.account Mock.account
              "secret" Mock.running_task Mock.running_task
              eq_refl eq_refl eq_refl)
    as [fields [Hret [Hnone Hsome]]].
  assert (Hreported : reported_forwards Mock.running_task <> [])
    by discriminate.
  destruct (Hsome Hreported) as [descriptors [Hget [_ Hall]]].
  exists fields, descriptors.
  split; [exact Hret |]. split; [exact Hget |]. split.
  - symmetry. exact (Forall2_length Hall).
  - rewrite Hget. discriminate.
Defined.

(** ** Tasks without forward information *)

Lemma no_forward_info_no_ssh_info {object : Type} (task : Task object) :
  no_forward_info task -> ssh_info task = [].
Proof.
  intros Hnone. unfold ssh_info.
  destruct Hnone as [Hstatus | Hstatus
                     | task_status Hstatus Hrunning
                     | task_status running_info Hstatus Hrunning Hper
                     | task_status running_info instances Hstatus Hrunning
                         Hper Hall];
    rewrite Hstatus; try reflexivity.
  - destruct Hrunning as [-> | ->]; reflexivity.
  - rewrite Hrunning. cbn [getattr]. rewrite Hper. reflexivity.
  - rewrite Hrunning. cbn [getattr]. rewrite Hper. cbn [getattr].
    clear Hper. induction Hall as [| instance rest Hinstance _ IH]; cbn [flat_map].
    + reflexivity.
    + rewrite IH. destruct Hinstance as [-> | ->]; reflexivity.
Qed.

(** C10.  When the refreshed task has no [status] attribute, or a [status]
    that is [None], or a status without [running_instances_info] (or with
    [None] there), or running-instance information without
    [per_running_instance_info], or instances that each lack
    [active_forwards] or hold an empty list of them, [get_task_status] still
    returns: the dumped object has the eleven status fields with the task's
    values and [ssh_connections] set to [No active SSH forwards]. *)
Theorem get_task_status_without_forward_info :
  forall (object Connection World : Type) (str : object -> string)
         (h : handler object Connection World)
         (token requested : string) (w w1 w2 w3 : World)
         (conn : Connection) (fetched task : Task object),
    h (NewConnection token) w = (Ok conn, w1) ->
    h (retrieve_task conn requested) w1 = (Ok fetched, w2) ->
    h (update fetched true) w2 = (Ok task, w3) ->
    no_forward_info task ->
    returned (run h (get_task_status str token requested) w)
    = Ok (dumps
            (JObj [ ("uuid", JStr (uuid task));
                    ("name", JStr (name task));
                    ("state", JStr (state task));
                    ("progress", JStr (str (progress task) ++ "%"));
                    ("instance_count", JInt (instancecount task));
                    ("running_instances", JInt (running_instance_count task));
                    ("running_cores", JInt (running_core_count task));
                    ("execution_time", JStr (str (execution_time task)));
                    ("wall_time", JStr (str (wall_time task)));
                    ("creation_date", JStr (str (creation_date task)));
                    ("end_date", JStr (date_or_na str (end_date task)));
                    ("ssh_connections", JStr "No active SSH forwards") ])).
Proof.
  intros object Connection World str h token requested w w1 w2 w3 conn fetched task
         Hconn Hfetch Hupdate Hnone.
  rewrite (get_task_status_returns str h _ _ _ _ _ _ _ _ _ Hconn Hfetch Hupdate).
  cbn [returned]. unfold status_result.
  rewrite (no_forward_info_no_ssh_info task Hnone). reflexivity.
Qed.

Lemma get_task_status_without_forward_info_witness :
  returned (run Mock.handle
              (get_task_status (fun s : string => s) "secret" "t-done")
              Mock.account)
  = Ok (dumps
          (JObj [ ("uuid", JStr "t-done");
                  ("name", JStr "meshing");
                  ("state", JStr "Success");
                  ("progress", JStr "100.0%");
                  ("instance_count", JInt 1);
                  ("running_instances", JInt 0);
                  ("running_cores", JInt 0);
                  ("execution_time", JStr "01:00:00");
                  ("wall_time", JStr "01:05:00");
                  ("creation_date", JStr "2024-04-30 08:00:00");
                  ("end_date", JStr "2024-04-30 09:05:00");
                  ("ssh_connections", JStr "No active SSH forwards") ])).
Proof.
  apply (get_task_status_without_forward_info string string Mock.World
           (fun s => s) Mock.handle "secret" "t-done"
           Mock.account Mock.account Mock.account Mock.account
           "secret" Mock.finished_task Mock.finished_task
           eq_refl eq_refl eq_refl).
  apply status_is_none. reflexivity.
Defined.

(** * Further properties of the tools *)

Ltac unfold_tools :=
  unfold invoke, list_tasks, get_task_status, get_task_stdout,
    get_task_stderr, cancel_task, list_buckets, list_bucket_files,
    download_result, get_connection.

(** Case analysis on every answer of the collaborator along a run, keeping
    the equations. *)
Ltac walk h :=
  repeat (cbn [run bind call returned final trace];
          match goal with
          | |- context [h ?op ?w] =>
              let E := fresh "Hcall" in
              destruct (h op w) as [[? | ?] ?] eqn:E
          | |- context [if terminal ?s then _ else _] =>
              let E := fresh "Hterminal" in
              destruct (terminal s) eqn:E
          | |- context [match ?i with Some _ => _ | None => _ end] =>
              is_var i; destruct i
          end);
  cbn [run bind call returned final trace].

(** ** Failures and the calls a tool makes *)

(** X1.  When the connection cannot be built, every tool stops there: the
    exception raised by the connection is the outcome, and the connection
    attempt is the only call made. *)
Theorem connection_failure_stops_every_tool :
  forall (object Connection World : Type) (str : object -> string)
         (h : handler object Connection World)
         (token : string) (c : tool_call) (w w' : World) (e : exn),
    h (NewConnection token) w = (Raise e, w') ->
    run h (invoke str token c) w
    = {| returned := Raise e; final := w'; trace := [NewConnection token] |}.
Proof.
  intros object Connection World str h token c w w' e Hfail.
  destruct c; unfold_tools; apply (run_call_raise h _ _ _ _ _ Hfail).
Qed.

Lemma connection_failure_stops_every_tool_witness :
  run Guarded.handle (invoke (fun s : string => s) "wrong" (CancelTask "t-run"))
      Mock.account
  = {| returned := Raise (Exn "UnauthorizedException" "invalid token");
       final := Mock.account;
       trace := [NewConnection "wrong"] |}.
Proof.
  apply (connection_failure_stops_every_tool string string Mock.World
           (fun s => s) Guarded.handle "wrong" (CancelTask "t-run")
           Mock.account Mock.account).
  reflexivity.
Defined.

(** X2.  Whatever the collaborator answers, [abort] is called by
    [cancel_task] alone and at most once, and [get_file] by [download_result]
    alone and at most once: the six other tools only read. *)
Theorem only_cancel_aborts_only_download_fetches :
  forall (object Connection World : Type) (str : object -> string)
         (h : handler object Connection World)
         (token : string) (c : tool_call) (w : World),
    abort_count (trace (run h (invoke str token c) w))
    <= match c with CancelTask _ => 1 | _ => 0 end
    /\ count_calls is_get_file (trace (run h (invoke str token c) w))
       <= match c with DownloadResult _ _ _ => 1 | _ => 0 end.
Proof.
  intros object Connection World str h token c w.
  destruct c; unfold_tools; walk h;
    cbn [abort_count count_calls filter is_abort is_get_file List.length];
    split; lia.
Qed.

(** X3.  Every run of a tool builds exactly one connection and makes at most
    three calls in all, however the collaborator answers. *)
Theorem one_connection_at_most_three_calls :
  forall (object Connection World : Type) (str : object -> string)
         (h : handler object Connection World)
         (token : string) (c : tool_call) (w : World),
    count_calls is_connection (trace (run h (invoke str token c) w)) = 1
    /\ List.length (trace (run h (invoke str token c) w)) <= 3.
Proof.
  intros object Connection World str h token c w.
  destruct c; unfold_tools; walk h;
    cbn [count_calls filter is_connection List.length];
    split; (reflexivity || lia).
Qed.

Lemma append_cancel_head (a b c : string) : a ++ b = a ++ c -> b = c.
Proof.
  induction a as [| x a IH]; cbn; intros H; [exact H |].
  injection H as H. exact (IH H).
Qed.

(** ** What a side effect or a confirmation presupposes *)

(** X4.  [cancel_task] aborts nothing but the task it has just fetched for
    the requested uuid, and only when that task is in none of the three
    terminal states: if the lookup fails, or the task is terminal, no abort
    is ever sent. *)
Theorem cancel_task_aborts_only_the_fetched_live_task :
  forall (object Connection World : Type)
         (h : handler object Connection World)
         (token uuid : string) (w : World) (victim : Task object),
    In (abort victim) (trace (run h (cancel_task token uuid) w)) ->
    exists conn w1 w2,
      h (NewConnection token) w = (Ok conn, w1)
      /\ h (retrieve_task conn uuid) w1 = (Ok victim, w2)
      /\ ~ In (state victim) ["Cancelled"; "Success"; "Failure"].
Proof.
  intros object Connection World h token uuid w victim.
  unfold cancel_task, get_connection. walk h; cbn [In]; intros Hin;
    repeat match goal with
           | H : _ \/ _ |- _ => destruct H as [H | H]
           end;
    try contradiction; try discriminate.
  - injection Hin as <-. eexists _, _, _. split; [reflexivity |].
    split; [eassumption |].
    intros Hstate. apply terminal_spec in Hstate. congruence.
  - injection Hin as <-. eexists _, _, _. split; [reflexivity |].
    split; [eassumption |].
    intros Hstate. apply terminal_spec in Hstate. congruence.
Qed.

Lemma cancel_task_aborts_only_the_fetched_live_task_witness :
  exists conn w1 w2,
    Mock.handle (NewConnection "secret") Mock.account = (Ok conn, w1)
    /\ Mock.handle (retrieve_task conn "t-run") w1 = (Ok Mock.running_task, w2)
    /\ ~ In (state Mock.running_task) ["Cancelled"; "Success"; "Failure"].
Proof.
  apply (cancel_task_aborts_only_the_fetched_live_task string string
           Mock.World Mock.handle "secret" "t-run" Mock.account
           Mock.running_task).
  cbn. right. right. left. reflexivity.
Defined.

(** X5.  The confirmation [Task <uuid> has been cancelled.] is returned only
    after an abort that went through: the task fetched for the uuid was not
    terminal, [abort] on it succeeded, and the collaborator is left as the
    abort left it.  In particular it is never returned for a terminal
    task. *)
Theorem cancel_confirmation_means_abort_succeeded :
  forall (object Connection World : Type)
         (h : handler object Connection World)
         (token uuid : string) (w : World),
    returned (run h (cancel_task token uuid) w)
    = Ok ("Task " ++ uuid ++ " has been cancelled.") ->
    exists conn w1 task w2 w3,
      h (NewConnection token) w = (Ok conn, w1)
      /\ h (retrieve_task conn uuid) w1 = (Ok task, w2)
      /\ ~ In (state task) ["Cancelled"; "Success"; "Failure"]
      /\ h (abort task) w2 = (Ok tt, w3)
      /\ final (run h (cancel_task token uuid) w) = w3.
Proof.
  intros object Connection World h token uuid w.
  unfold cancel_task, get_connection. walk h; intros Hret;
    try discriminate Hret.
  - exfalso. injection Hret as Hret.
    apply append_cancel_head in Hret. discriminate Hret.
  - match goal with H : h (abort _) _ = (Ok ?u, _) |- _ => destruct u end.
    eexists _, _, _, _, _. split; [reflexivity |].
    split; [eassumption |]. split.
    + intros Hstate. apply terminal_spec in Hstate. congruence.
    + split; [eassumption | reflexivity].
Qed.

Lemma cancel_confirmation_means_abort_succeeded_witness :
  exists conn w1 task w2 w3,
    Mock.handle (NewConnection "secret") Mock.account = (Ok conn, w1)
    /\ Mock.handle (retrieve_task conn "t-run") w1 = (Ok task, w2)
    /\ ~ In (state task) ["Cancelled"; "Success"; "Failure"]
    /\ Mock.handle (abort task) w2 = (Ok tt, w3)
    /\ final (run Mock.handle (cancel_task "secret" "t-run") Mock.account) = w3.
Proof.
  apply (cancel_confirmation_means_abort_succeeded string string Mock.World
           Mock.handle "secret" "t-run" Mock.account).
  reflexivity.
Defined.

(** X6.  [download_result] returns (its confirmation) only after [get_file]
    has succeeded on the bucket fetched under the given name, with the remote
    and local paths as given; a failure to connect, to find the bucket or to
    fetch the file never yields a confirmation. *)
Theorem download_confirmation_means_file_fetched :
  forall (object Connection World : Type)
         (h : handler object Connection World)
         (token bucket_name remote_path local_path : string)
         (w : World) (message : string),
    returned (run h (download_result token bucket_name remote_path local_path) w)
    = Ok message ->
    exists conn w1 bucket w2 w3,
      h (NewConnection token) w = (Ok conn, w1)
      /\ h (retrieve_bucket conn bucket_name) w1 = (Ok bucket, w2)
      /\ h (get_file bucket remote_path local_path) w2 = (Ok tt, w3)
      /\ final (run h (download_result token bucket_name remote_path
                         local_path) w) = w3
      /\ message = "Downloaded '" ++ remote_path ++ "' from '" ++ bucket_name
                     ++ "' to '" ++ local_path ++ "'".
Proof.
  intros object Connection World h token bucket_name remote_path local_path
         w message.
  unfold download_result, get_connection. walk h; intros Hret;
    try discriminate Hret.
  match goal with H : h (get_file _ _ _) _ = (Ok ?u, _) |- _ => destruct u end.
  injection Hret as <-.
  eexists _, _, _, _, _. split; [reflexivity |].
  split; [eassumption |]. split; [eassumption |]. split; reflexivity.
Qed.

Lemma download_confirmation_means_file_fetched_witness :
  exists conn w1 bucket w2 w3,
    Mock.handle (NewConnection "secret") Mock.account = (Ok conn, w1)
    /\ Mock.handle (retrieve_bucket conn "results") w1 = (Ok bucket, w2)
    /\ Mock.handle (get_file bucket "out/log.txt" "/tmp/log.txt") w2
       = (Ok tt, w3)
    /\ final (run Mock.handle
                (download_result "secret" "results" "out/log.txt" "/tmp/log.txt")
                Mock.account) = w3
    /\ "Downloaded 'out/log.txt' from 'results' to '/tmp/log.txt'"
       = "Downloaded '" ++ "out/log.txt" ++ "' from '" ++ "results"
           ++ "' to '" ++ "/tmp/log.txt" ++ "'".
Proof.
  apply (download_confirmation_means_file_fetched string string Mock.World
           Mock.handle "secret" "results" "out/log.txt" "/tmp/log.txt"
           Mock.account).
  reflexivity.
Defined.

(** X7.  Whatever [get_task_status] returns was read after the refresh: the
    task was fetched, [update] was called on it with [flushcache=True] and
    succeeded, and the returned text is the dump of the refreshed object's
    fields.  When the refresh raises there is no report at all, rather than
    one built from the object as first fetched. *)
Theorem task_status_is_read_after_refresh :
  forall (object Connection World : Type) (str : object -> string)
         (h : handler object Connection World)
         (token uuid : string) (w : World) (report : string),
    returned (run h (get_task_status str token uuid) w) = Ok report ->
    exists conn w1 fetched w2 refreshed w3,
      h (NewConnection token) w = (Ok conn, w1)
      /\ h (retrieve_task conn uuid) w1 = (Ok fetched, w2)
      /\ h (update fetched true) w2 = (Ok refreshed, w3)
      /\ report = dumps (status_result str refreshed)
      /\ trace (run h (get_task_status str token uuid) w)
         = [NewConnection token; retrieve_task conn uuid; update fetched true].
Proof.
  intros object Connection World str h token uuid w report.
  unfold get_task_status, get_connection. walk h; intros Hret;
    try discriminate Hret.
  injection Hret as <-.
  eexists _, _, _, _, _, _. split; [reflexivity |].
  split; [eassumption |]. split; [eassumption |]. split; reflexivity.
Qed.

Lemma task_status_is_read_after_refresh_witness :
  exists conn w1 fetched w2 refreshed w3,
    Mock.handle (NewConnection "secret") Mock.account = (Ok conn, w1)
    /\ Mock.handle (retrieve_task conn "t-done") w1 = (Ok fetched, w2)
    /\ Mock.handle (update fetched true) w2 = (Ok refreshed, w3)
    /\ dumps (status_result (fun s : string => s) Mock.finished_task)
       = dumps (status_result (fun s : string => s) refreshed)
    /\ trace (run Mock.handle
                (get_task_status (fun s : string => s) "secret" "t-done")
                Mock.account)
       = [NewConnection "secret"; retrieve_task conn "t-done";
          update fetched true].
Proof.
  apply (task_status_is_read_after_refresh string string Mock.World
           (fun s => s) Mock.handle "secret" "t-done" Mock.account).
  reflexivity.
Defined.

(** X8.  [get_task_stdout] makes at most one [stdout] read and no [stderr]
    read at all, on any task and with any instance id; its one read, when it
    happens, is on the task fetched for the requested uuid, with the
    instance id exactly as it was passed.  [get_task_stderr] is the mirror
    image: at most one [stderr] read, on the fetched task with the given
    instance id, and no [stdout] read at all. *)
Theorem output_reads_target_the_fetched_task :
  forall (object Connection World : Type)
         (h : handler object Connection World)
         (token uuid : string) (instance_id : option Z) (w : World),
    (count_calls is_stdout
       (trace (run h (get_task_stdout token uuid instance_id) w)) <= 1
     /\ count_calls is_stderr
          (trace (run h (get_task_stdout token uuid instance_id) w)) = 0
     /\ (forall read i, ~ In (stderr read i)
            (trace (run h (get_task_stdout token uuid instance_id) w)))
     /\ (forall read i,
           In (stdout read i)
              (trace (run h (get_task_stdout token uuid instance_id) w)) ->
           i = instance_id
           /\ exists conn w1 w2,
                h (NewConnection token) w = (Ok conn, w1)
                /\ h (retrieve_task conn uuid) w1 = (Ok read, w2)))
    /\ (count_calls is_stderr
          (trace (run h (get_task_stderr token uuid instance_id) w)) <= 1
        /\ count_calls is_stdout
             (trace (run h (get_task_stderr token uuid instance_id) w)) = 0
        /\ (forall read i, ~ In (stdout read i)
               (trace (run h (get_task_stderr token uuid instance_id) w)))
        /\ (forall read i,
              In (stderr read i)
                 (trace (run h (get_task_stderr token uuid instance_id) w)) ->
              i = instance_id
              /\ exists conn w1 w2,
                   h (NewConnection token) w = (Ok conn, w1)
                   /\ h (retrieve_task conn uuid) w1 = (Ok read, w2))).
Proof.
  intros object Connection World h token uuid instance_id w.
  split.
  - unfold get_task_stdout, get_connection. walk h;
      (split; [cbn [count_calls filter is_stdout List.length]; lia |]);
      (split; [reflexivity |]);
      (split; intros read i Hin; cbn [In] in Hin;
       repeat match goal with
              | H : _ \/ _ |- _ => destruct H as [H | H]
              end;
       try contradiction; try discriminate);
      injection Hin as <- <-;
      (split; [reflexivity |]);
      (eexists _, _, _; split; [reflexivity | eassumption]).
  - unfold get_task_stderr, get_connection. walk h;
      (split; [cbn [count_calls filter is_stderr List.length]; lia |]);
      (split; [reflexivity |]);
      (split; intros read i Hin; cbn [In] in Hin;
       repeat match goal with
              | H : _ \/ _ |- _ => destruct H as [H | H]
              end;
       try contradiction; try discriminate);
      injection Hin as <- <-;
      (split; [reflexivity |]);
      (eexists _, _, _; split; [reflexivity | eassumption]).
Qed.

Lemma output_reads_target_the_fetched_task_witness :
  Some 0%Z = Some 0%Z
  /\ exists conn w1 w2,
       Mock.handle (NewConnection "secret") Mock.account = (Ok conn, w1)
       /\ Mock.handle (retrieve_task conn "t-run") w1
          = (Ok Mock.running_task, w2).
Proof.
  destruct (output_reads_target_the_fetched_task string string Mock.World
              Mock.handle "secret" "t-run" (Some 0%Z) Mock.account)
    as [[_ [_ [_ Hscoped]]] _].
  apply (Hscoped Mock.running_task (Some 0%Z)).
  cbn. right. right. left. reflexivity.
Defined.

(** ** The returned text *)

Lemma or_default_not_empty (capture : option string) (default : string) :
  default <> "" -> or_default capture default <> "".
Proof.
  intros Hdefault. destruct capture as [[| c rest] |]; cbn; auto; discriminate.
Qed.

Lemma dumps_array_starts (items : list json) :
  exists rest, dumps (JArr items) = String "[" rest.
Proof. destruct items; cbn; eexists; reflexivity. Qed.

Lemma dumps_filled_array_not_closed (item : json) (items : list json) :
  exists rest, dumps (JArr (item :: items)) = String "[" (String newline rest).
Proof. cbn. eexists. reflexivity. Qed.

Lemma dumps_object_starts (fields : list (string * json)) :
  exists rest, dumps (JObj fields) = String "{" rest.
Proof. destruct fields; cbn; eexists; reflexivity. Qed.

(** X9.  No tool ever returns the empty string: a listing is at least the
    two brackets or a sentence, a status is an object, an empty capture is
    replaced by its placeholder, and the confirmations are sentences. *)
Theorem tools_never_return_empty_text :
  forall (object Connection World : Type) (str : object -> string)
         (h : handler object Connection World)
         (token : string) (c : tool_call) (w : World) (text : string),
    returned (run h (invoke str token c) w) = Ok text -> text <> "".
Proof.
  intros object Connection World str h token c w text.
  destruct c; unfold_tools; walk h; intros Hret;
    try discriminate Hret; injection Hret as <-;
    try (apply or_default_not_empty; discriminate);
    try discriminate;
    unfold status_result;
    try match goal with
        | |- context [match map _ ?l with [] => _ | _ :: _ => _ end] =>
            destruct l; cbn [map]; [discriminate |]
        end;
    match goal with
    | |- dumps (JArr ?l) <> _ =>
        destruct (dumps_array_starts l) as [rest ->]; discriminate
    | |- dumps (JObj ?f) <> _ =>
        destruct (dumps_object_starts f) as [rest ->]; discriminate
    end.
Qed.

Lemma tools_never_return_empty_text_witness :
  "Task t-done is already in state 'Success' and cannot be cancelled." <> "".
Proof.
  apply (tools_never_return_empty_text string string Mock.World (fun s => s)
           Mock.handle "secret" (CancelTask "t-done") Mock.account).
  reflexivity.
Defined.

(** X10.  The two bucket listings never return the text of the empty JSON
    array: over an empty listing they return their sentence, and they return
    it for no other listing.  [list_tasks], which has no such sentence,
    returns [[]] exactly when no task is listed. *)
Theorem empty_listings_are_told_apart :
  forall (object Connection World : Type) (str : object -> string)
         (h : handler object Connection World)
         (token : string) (w w1 : World) (conn : Connection),
    h (NewConnection token) w = (Ok conn, w1) ->
    (forall found w2,
        h (buckets conn) w1 = (Ok found, w2) ->
        returned (run h (list_buckets token) w) <> Ok "[]"
        /\ (returned (run h (list_buckets token) w) = Ok "No buckets found."
            <-> found = []))
    /\ (forall bucket_name bucket w2 listed w3,
          h (retrieve_bucket conn bucket_name) w1 = (Ok bucket, w2) ->
          h (list_files bucket) w2 = (Ok listed, w3) ->
          returned (run h (list_bucket_files token bucket_name) w) <> Ok "[]"
          /\ (returned (run h (list_bucket_files token bucket_name) w)
              = Ok "No files in bucket."
              <-> listed = []))
    /\ (forall listed w2,
          h (tasks conn) w1 = (Ok listed, w2) ->
          (returned (run h (list_tasks str token) w) = Ok "[]"
           <-> listed = [])).
Proof.
  intros object Connection World str h token w w1 conn Hconn.
  split; [| split].
  - intros found w2 Hfound.
    unfold list_buckets, get_connection.
    rewrite (run_call_ok h _ _ _ _ _ Hconn).
    rewrite (run_call_ok h _ _ _ _ _ Hfound).
    cbn [run returned]. destruct found as [| b rest]; cbn [map].
    + split; [discriminate |]. split; reflexivity.
    + match goal with
      | |- context [dumps (JArr (?x :: ?l))] =>
          destruct (dumps_filled_array_not_closed x l) as [text ->]
      end.
      split; [discriminate |]. split; discriminate.
  - intros bucket_name bucket w2 listed w3 Hbucket Hlisted.
    unfold list_bucket_files, get_connection.
    rewrite (run_call_ok h _ _ _ _ _ Hconn).
    rewrite (run_call_ok h _ _ _ _ _ Hbucket).
    rewrite (run_call_ok h _ _ _ _ _ Hlisted).
    cbn [run returned]. destruct listed as [| f rest]; cbn [map].
    + split; [discriminate |]. split; reflexivity.
    + match goal with
      | |- context [dumps (JArr (?x :: ?l))] =>
          destruct (dumps_filled_array_not_closed x l) as [text ->]
      end.
      split; [discriminate |]. split; discriminate.
  - intros listed w2 Hlisted.
    unfold list_tasks, get_connection.
    rewrite (run_call_ok h _ _ _ _ _ Hconn).
    rewrite (run_call_ok h _ _ _ _ _ Hlisted).
    cbn [run returned]. destruct listed as [| t rest]; cbn [map].
    + split; reflexivity.
    + match goal with
      | |- context [dumps (JArr (?x :: ?l))] =>
          destruct (dumps_filled_array_not_closed x l) as [text ->]
      end.
      split; discriminate.
Qed.

Lemma empty_listings_are_told_apart_witness :
  returned (run Mock.handle (list_buckets "secret") Mock.empty_account)
  = Ok "No buckets found."
  /\ returned (run Mock.handle (list_bucket_files "secret" "scratch")
                 Mock.account)
     <> Ok "[]"
  /\ returned (run Mock.handle (list_tasks (fun s : string => s) "secret")
                 Mock.empty_account)
     = Ok "[]".
Proof.
  destruct (empty_listings_are_told_apart string string Mock.World
              (fun s => s) Mock.handle "secret" Mock.empty_account
              Mock.empty_account "secret" eq_refl)
    as [Hbuckets [_ Htasks]].
  destruct (empty_listings_are_told_apart string string Mock.World
              (fun s => s) Mock.handle "secret" Mock.account
              Mock.account "secret" eq_refl)
    as [_ [Hfiles _]].
  split; [| split].
  - apply (Hbuckets [] Mock.empty_account eq_refl). reflexivity.
  - exact (proj1 (Hfiles "scratch" _ _ _ _ eq_refl eq_refl)).
  - apply (Htasks [] Mock.empty_account eq_refl). reflexivity.
Defined.

(** X11.  For one task object, the summary listed by [list_tasks] and the
    status reported by [get_task_status] agree on each of the eight summary
    fields: same key, same value. *)
Theorem summary_agrees_with_status :
  forall (object : Type) (str : object -> string) (task : Task object)
         (field : string),
    In field summary_keys ->
    get field (fields_of (task_summary str task))
    = get field (fields_of (status_result str task))
    /\ get field (fields_of (task_summary str task)) <> None.
Proof.
  intros object str task field Hin.
  cbn [In summary_keys] in Hin.
  repeat match goal with
         | H : _ \/ _ |- _ => destruct H as [H | H]
         end;
    try contradiction; subst field; (split; [reflexivity | discriminate]).
Qed.

Lemma summary_agrees_with_status_witness :
  get "end_date" (fields_of (task_summary (fun s : string => s)
                               Mock.finished_task))
  = get "end_date" (fields_of (status_result (fun s : string => s)
                                 Mock.finished_task))
  /\ get "end_date" (fields_of (task_summary (fun s : string => s)
                                  Mock.finished_task))
     <> None.
Proof.
  apply (summary_agrees_with_status string (fun s => s) Mock.finished_task
           "end_date").
  cbn. do 7 right. left. reflexivity.
Defined.
